(** * The project dashboard's data layer (app.py), embedded in Rocq

    The program keeps two SQLite tables ([projects], [project_files]) and a
    directory tree of uploaded files, and reports to the user through
    Streamlit elements.  The embedding keeps that shape: a [world] record
    holds the two tables with their AUTOINCREMENT counters, the disk, and the
    page rendered so far; every function of app.py is a computation in a
    state-and-exception monad [py] over that record, so that a [try]/[except]
    of the source is a [try_except] here and an exception nobody catches is
    an outcome [Raised]. *)

From Stdlib Require Import ZArith Lia Ascii String.
From Stdlib.Strings Require Import Byte.
From stdpp Require Import base strings gmap list pretty.

Local Open Scope Z_scope.

(** ** Strings and paths

    A Python [str] is its UTF-8 encoding: a [string] of bytes.  Lengths are
    counted in bytes, as the file system counts them. *)

Definition is_slash (c : ascii) : bool := Ascii.eqb c "/".

Fixpoint has_slash (s : string) : bool :=
  match s with
  | EmptyString => false
  | String c r => if is_slash c then true else has_slash r
  end.

Definition starts_with_slash (s : string) : bool :=
  match s with
  | String c _ => is_slash c
  | EmptyString => false
  end.

Fixpoint ends_with_slash (s : string) : bool :=
  match s with
  | EmptyString => false
  | String c EmptyString => is_slash c
  | String _ r => ends_with_slash r
  end.

(** [os.path.join(a, b)] on POSIX: an absolute [b] discards [a]; otherwise
    the two are concatenated, with a separator unless [a] is empty or
    already ends with one. *)
Definition os_path_join (a b : string) : string :=
  if starts_with_slash b then b
  else if ends_with_slash a then a +:+ b
  else match a with
       | EmptyString => b
       | _ => a +:+ "/" +:+ b
       end.

(** [os.path.dirname] and [os.path.basename]: the text before and after the
    last separator.  A path with no directory part has dirname [""], which
    stands for the working directory (or the root, for ["/x"]). *)
Fixpoint dirname (s : string) : string :=
  match s with
  | EmptyString => EmptyString
  | String c r => if has_slash r then String c (dirname r) else EmptyString
  end.

Fixpoint basename (s : string) : string :=
  match s with
  | EmptyString => EmptyString
  | String c r => if has_slash (String c r) then basename r else String c r
  end.

(** The directories [os.makedirs] walks through, outermost first: every
    prefix of the path that ends just before a separator, and the path
    itself when it does not end with one.  [pre] is the text already
    consumed up to the last separator, [cur] the component being read. *)
Definition emit (pre cur : string) : list string :=
  match cur with
  | EmptyString => []
  | _ => [pre +:+ cur]
  end.

Fixpoint dir_prefixes_from (pre cur s : string) : list string :=
  match s with
  | EmptyString => emit pre cur
  | String c r =>
      if is_slash c
      then emit pre cur ++ dir_prefixes_from (pre +:+ cur +:+ "/") EmptyString r
      else dir_prefixes_from pre (cur +:+ String c EmptyString) r
  end.

Definition dir_prefixes (s : string) : list string :=
  dir_prefixes_from EmptyString EmptyString s.

(** What the operating system refuses in a path: a NUL byte (Python raises
    ValueError before the call), more than 4095 bytes in all, or a
    component of more than 255 bytes. *)
Definition is_nul (c : ascii) : bool := Ascii.eqb c "000".

Fixpoint has_nul (s : string) : bool :=
  match s with
  | EmptyString => false
  | String c r => if is_nul c then true else has_nul r
  end.

Definition strlen (s : string) : Z := Z.of_nat (String.length s).

Fixpoint long_component_from (cur : Z) (s : string) : bool :=
  match s with
  | EmptyString => 255 <? cur
  | String c r =>
      if is_slash c then (255 <? cur) || long_component_from 0 r
      else long_component_from (cur + 1) r
  end.

Definition path_too_long (s : string) : bool :=
  (4095 <? strlen s) || long_component_from 0 s.

(** A file name as a browser sends it: one path component. *)
Definition valid_file_name (n : string) : bool :=
  negb (has_slash n)
  && negb (bool_decide (n = ""))
  && negb (bool_decide (n = "."))
  && negb (bool_decide (n = "..")).

(** A plain name that the file system can hold. *)
Definition storable_name (n : string) : bool :=
  valid_file_name n && negb (has_nul n) && (strlen n <=? 255).

(** ** Calendar dates and [strftime('%Y-%m-%d')] *)

Record date := Date { year : Z; month : Z; day : Z }.

Definition is_leap (y : Z) : bool :=
  (y mod 4 =? 0) && (negb (y mod 100 =? 0) || (y mod 400 =? 0)).

Definition days_in_month (y m : Z) : Z :=
  if m =? 2 then (if is_leap y then 29 else 28)
  else if (m =? 4) || (m =? 6) || (m =? 9) || (m =? 11) then 30
  else 31.

(** The check of [datetime.date(year, month, day)]. *)
Definition valid_date (d : date) : bool :=
  (1 <=? year d) && (year d <=? 9999)
  && (1 <=? month d) && (month d <=? 12)
  && (1 <=? day d) && (day d <=? days_in_month (year d) (month d)).

Definition digit (n : Z) : ascii :=
  ascii_of_nat (48 + Z.to_nat (n mod 10)).

Definition pad2 (n : Z) : string :=
  String (digit (n / 10)) (String (digit n) EmptyString).

Definition pad4 (n : Z) : string :=
  String (digit (n / 1000)) (String (digit (n / 100)) (pad2 n)).

(** [%Y] as the C library prints it: the year in decimal, which has fewer
    than four digits before the year 1000. *)
Definition year_text (y : Z) : string :=
  if y <? 10 then String (digit y) EmptyString
  else if y <? 100 then pad2 y
  else if y <? 1000 then String (digit (y / 100)) (pad2 y)
  else pad4 y.

Definition strftime_Ymd (d : date) : string :=
  year_text (year d) +:+ "-" +:+ pad2 (month d) +:+ "-" +:+ pad2 (day d).

(** [date.toordinal()]: the number of the day, counted from 0001-01-01. *)
Definition days_before_year (y : Z) : Z :=
  (y - 1) * 365 + (y - 1) / 4 - (y - 1) / 100 + (y - 1) / 400.

Definition days_before_month (y m : Z) : Z :=
  foldr Z.add 0 (days_in_month y <$> seqZ 1 (m - 1)).

Definition toordinal (d : date) : Z :=
  days_before_year (year d) + days_before_month (year d) (month d) + day d.

(** [datetime.strptime(s, '%Y-%m-%d').date()] as the edit form applies it to
    a stored date (line 204): four digits of year, then a month and a day of
    one or two digits (the day may also be a space and a digit), then the
    calendar check. *)
Definition digit_value (c : ascii) : option Z :=
  let n := Z.of_nat (nat_of_ascii c) in
  if (48 <=? n) && (n <=? 57) then Some (n - 48) else None.

Definition number_upto2 (s : string) : option (Z * string) :=
  match s with
  | String a r =>
      match digit_value a with
      | None => None
      | Some x =>
          match r with
          | String b r' =>
              match digit_value b with
              | Some y => Some (10 * x + y, r')
              | None => Some (x, r)
              end
          | EmptyString => Some (x, r)
          end
      end
  | EmptyString => None
  end.

Definition day_field (s : string) : option (Z * string) :=
  match s with
  | String c r =>
      if Ascii.eqb c " "
      then match r with
           | String b r' =>
               match digit_value b with
               | Some y => Some (y, r')
               | None => None
               end
           | EmptyString => None
           end
      else number_upto2 s
  | EmptyString => None
  end.

Definition expect_dash (s : string) : option string :=
  match s with
  | String c r => if Ascii.eqb c "-" then Some r else None
  | EmptyString => None
  end.

Definition strptime_Ymd (s : string) : option date :=
  match s with
  | String a (String b (String c (String d r))) =>
      y1 ← digit_value a; y2 ← digit_value b;
      y3 ← digit_value c; y4 ← digit_value d;
      r ← expect_dash r;
      '(m, r) ← number_upto2 r;
      r ← expect_dash r;
      '(dd, r) ← day_field r;
      let dt := Date (1000 * y1 + 100 * y2 + 10 * y3 + y4) m dd in
      match r with
      | EmptyString => if valid_date dt then Some dt else None
      | _ => None
      end
  | _ => None
  end.

(** ** The two tables, the disk and the page *)

(** A row of [projects]; [p_id] is the column [id]. *)
Record project_row := ProjectRow {
  p_id : Z;
  project_name : string;
  category : string;
  pic : string;
  status : string;
  date_start : string;
  date_end : string }.

(** A row of [project_files]; [f_id] is the column [id]. *)
Record file_row := FileRow {
  f_id : Z;
  project_id : Z;
  file_name : string;
  file_path : string;
  upload_date : string }.

(** What a cursor hands back for [SELECT *]: the columns in table order. *)
Inductive sqlval :=
| SqlInt (z : Z)
| SqlText (s : string).

Definition file_row_tuple (r : file_row) : list sqlval :=
  [SqlInt (f_id r); SqlInt (project_id r); SqlText (file_name r);
   SqlText (file_path r); SqlText (upload_date r)].

Inductive node :=
| File (content : list byte)
| Dir.

(** Streamlit elements, in the order the script emits them. *)
Inductive element :=
| Success (body : string)
| Error (body : string)
| Info (body : string)
| Text (body : string)
| DownloadButton (label : string) (data : list byte) (fname mime key : string).

(** [disk] holds the files and directories the program can reach, other than
    those of the database.  An entry is keyed by its path without empty,
    "." or ".." components: the path relative to the working directory
    ([normal_path]) for what lies below it, the absolute path for what lies
    elsewhere; the working directory is not the root, and there are no
    links.  The functions of [os] and
    [open] below look a path up as the program spells it, which is the entry
    the operating system resolves it to when the spelling is in normal
    form, as are "files", "files/project_<id>" and the path [upload_file]
    joins from a plain file name.  The database's own files
    ([database_files]) are not entries of [disk]: removing one of them is
    outside the model.  [db_fault] is the condition of the database file:
    [Some msg] when every statement fails with [sqlite3.Error(msg)] (locked, unreadable, disk
    full), [None] when statements run.  [now] is what CURRENT_TIMESTAMP
    yields. *)
Record world := World {
  projects : list project_row;
  seq_projects : Z;
  project_files : list file_row;
  seq_project_files : Z;
  disk : gmap string node;
  db_fault : option string;
  now : string;
  page : list element }.

Definition with_projects (rows : list project_row) (seq : Z) (w : world) : world :=
  World rows seq (project_files w) (seq_project_files w) (disk w)
        (db_fault w) (now w) (page w).

Definition with_project_files (rows : list file_row) (seq : Z) (w : world) : world :=
  World (projects w) (seq_projects w) rows seq (disk w)
        (db_fault w) (now w) (page w).

Definition with_disk (d : gmap string node) (w : world) : world :=
  World (projects w) (seq_projects w) (project_files w) (seq_project_files w) d
        (db_fault w) (now w) (page w).

Definition with_page (p : list element) (w : world) : world :=
  World (projects w) (seq_projects w) (project_files w) (seq_project_files w)
        (disk w) (db_fault w) (now w) p.

(** ** Exceptions and the monad *)

Inductive exn :=
| sqlite3_Error (msg : string)
| FileNotFoundError (path : string)
| IsADirectoryError (path : string)
| FileExistsError (path : string)
| NotADirectoryError (path : string)
| pandas_DatabaseError (msg : string)
| IndexError
| TypeError
| OverflowError
| ValueError (msg : string)
| OSError_ENAMETOOLONG (path : string).

Definition is_sqlite3_Error (e : exn) : bool :=
  match e with
  | sqlite3_Error _ => true
  | _ => false
  end.

Definition is_Exception (e : exn) : bool := true.

(** [str(e)], as the f-strings of the handlers print it. *)
Definition str (e : exn) : string :=
  match e with
  | sqlite3_Error msg => msg
  | FileNotFoundError p => "[Errno 2] No such file or directory: '" +:+ p +:+ "'"
  | IsADirectoryError p => "[Errno 21] Is a directory: '" +:+ p +:+ "'"
  | FileExistsError p => "[Errno 17] File exists: '" +:+ p +:+ "'"
  | NotADirectoryError p => "[Errno 20] Not a directory: '" +:+ p +:+ "'"
  | pandas_DatabaseError msg => msg
  | IndexError => "tuple index out of range"
  | TypeError => "expected str, bytes or os.PathLike object"
  | OverflowError => "Python int too large to convert to SQLite INTEGER"
  | ValueError msg => msg
  | OSError_ENAMETOOLONG p => "[Errno 36] File name too long: '" +:+ p +:+ "'"
  end.

Inductive outcome (A : Type) :=
| Returned (a : A)
| Raised (e : exn).
Arguments Returned {A} a.
Arguments Raised {A} e.

Definition py (A : Type) : Type := world → outcome A * world.

#[export] Instance py_ret : MRet py := λ A a w, (Returned a, w).

#[export] Instance py_bind : MBind py := λ A B k m w,
  match m w with
  | (Returned a, w') => k a w'
  | (Raised e, w') => (Raised e, w')
  end.

Definition raise {A} (e : exn) : py A := λ w, (Raised e, w).

(** [try: body / except <class> as e: handler e].  What [body] did to the
    world before it raised stays done. *)
Definition try_except {A} (body : py A) (class : exn → bool) (handler : exn → py A) : py A :=
  λ w, match body w with
       | (Raised e, w') => if class e then handler e w' else (Raised e, w')
       | r => r
       end.

Definition get_world : py world := λ w, (Returned w, w).
Definition put_world (w' : world) : py unit := λ _, (Returned tt, w').

(** ** Streamlit *)

Definition emit_element (e : element) : py unit :=
  λ w, (Returned tt, with_page (page w ++ [e]) w).

Definition st_success (body : string) : py unit := emit_element (Success body).
Definition st_error (body : string) : py unit := emit_element (Error body).
Definition st_info (body : string) : py unit := emit_element (Info body).
Definition st_write (body : string) : py unit := emit_element (Text body).
Definition st_download_button (label : string) (data : list byte)
    (fname mime key : string) : py unit :=
  emit_element (DownloadButton label data fname mime key).

(** ** sqlite3 *)

(** SQLite integers have 64 bits. *)
Definition in_int64 (z : Z) : bool :=
  (- 2 ^ 63 <=? z) && (z <? 2 ^ 63).

Definition bindable (v : sqlval) : bool :=
  match v with
  | SqlInt z => in_int64 z
  | SqlText _ => true
  end.

(** Every [execute(sql, params)] goes through this.  The parameters are
    bound first, and a Python int that does not fit raises OverflowError,
    which is no [sqlite3.Error]; then the statement runs, and raises when
    the database is in a faulty condition. *)
Definition execute (params : list sqlval) : py unit :=
  λ w, if forallb bindable params
       then match db_fault w with
            | Some msg => (Raised (sqlite3_Error msg), w)
            | None => (Returned tt, w)
            end
       else (Raised OverflowError, w).

(** AUTOINCREMENT: one more than the largest rowid the table has ever held,
    which SQLite keeps in sqlite_sequence and compares with the rows
    present. *)
Definition next_rowid (seq : Z) (ids : list Z) : Z :=
  foldr Z.max seq ids + 1.

Definition insert_into_projects (name cat person st ds de : string) : py unit :=
  execute [SqlText name; SqlText cat; SqlText person; SqlText st; SqlText ds; SqlText de];;
  w ← get_world;
  let i := next_rowid (seq_projects w) (p_id <$> projects w) in
  put_world (with_projects (projects w ++ [ProjectRow i name cat person st ds de]) i w).

Definition update_projects_where_id (name cat person st ds de : string) (i : Z) : py unit :=
  execute [SqlText name; SqlText cat; SqlText person; SqlText st; SqlText ds; SqlText de;
           SqlInt i];;
  w ← get_world;
  put_world (with_projects
    ((λ r, if bool_decide (p_id r = i) then ProjectRow (p_id r) name cat person st ds de else r)
       <$> projects w)
    (seq_projects w) w).

Definition delete_from_projects_where_id (i : Z) : py unit :=
  execute [SqlInt i];;
  w ← get_world;
  put_world (with_projects (filter (λ r, p_id r ≠ i) (projects w)) (seq_projects w) w).

Definition select_all_from_projects : py (list project_row) :=
  execute [];;
  w ← get_world;
  mret (projects w).

Definition insert_into_project_files (pid : Z) (name path : string) : py unit :=
  execute [SqlInt pid; SqlText name; SqlText path];;
  w ← get_world;
  let i := next_rowid (seq_project_files w) (f_id <$> project_files w) in
  put_world (with_project_files (project_files w ++ [FileRow i pid name path (now w)]) i w).

(** [SELECT * FROM project_files WHERE id=?] followed by [fetchone()]. *)
Definition select_file_where_id (i : Z) : py (option (list sqlval)) :=
  execute [SqlInt i];;
  w ← get_world;
  mret (file_row_tuple <$> head (filter (λ r, f_id r = i) (project_files w))).

Definition delete_from_project_files_where_id (i : Z) : py unit :=
  execute [SqlInt i];;
  w ← get_world;
  put_world (with_project_files (filter (λ r, f_id r ≠ i) (project_files w))
                                (seq_project_files w) w).

(** The columns the file listing selects. *)
Definition listed (r : file_row) : Z * string * string :=
  (f_id r, file_name r, file_path r).

(** [SELECT pf.id, pf.file_name, pf.file_path FROM project_files pf
    WHERE pf.project_id = <pid>]: the id is written into the text of the
    statement, nothing is bound. *)
Definition select_files_where_project_id (pid : Z) : py (list (Z * string * string)) :=
  execute [];;
  w ← get_world;
  mret (listed <$> filter (λ r, project_id r = pid) (project_files w)).

(** [pd.read_sql(sql, conn)]: pandas reports a failed statement as its own
    [DatabaseError]. *)
Definition pd_read_sql {A} (sql : string) (query : py A) : py A :=
  try_except query is_sqlite3_Error
    (λ e, raise (pandas_DatabaseError
                   ("Execution failed on sql '" +:+ sql +:+ "': " +:+ str e))).

(** ** os and open *)

Definition os_path_exists (p : string) : py bool :=
  λ w, (Returned (bool_decide (is_Some (disk w !! p))), w).

Definition os_remove (p : string) : py unit :=
  λ w, match disk w !! p with
       | Some (File _) => (Returned tt, with_disk (delete p (disk w)) w)
       | Some Dir => (Raised (IsADirectoryError p), w)
       | None => (Raised (FileNotFoundError p), w)
       end.

(** The error of a path that cannot be passed to the operating system. *)
Definition path_problem (p : string) : option exn :=
  if has_nul p then Some (ValueError "embedded null byte")
  else if path_too_long p then Some (OSError_ENAMETOOLONG p)
  else None.

(** [os.makedirs(name, exist_ok=True)]: each directory on the way is created
    unless it is there already; a regular file in the way is an error, and
    so is a directory whose path the operating system refuses. *)
Fixpoint mkdir_each (name : string) (ps : list string) : py unit :=
  match ps with
  | [] => mret tt
  | p :: rest =>
      λ w, match path_problem p with
           | Some e => (Raised e, w)
           | None =>
               match disk w !! p with
               | Some Dir => mkdir_each name rest w
               | Some (File _) =>
                   (Raised (match rest with
                            | [] => FileExistsError name
                            | _ => NotADirectoryError name
                            end), w)
               | None => mkdir_each name rest (with_disk (<[p := Dir]> (disk w)) w)
               end
           end
  end.

Definition os_makedirs (name : string) : py unit :=
  mkdir_each name (dir_prefixes name).

Definition is_component (s : string) : bool :=
  negb (bool_decide (s = ""))
  && negb (bool_decide (s = "."))
  && negb (bool_decide (s = "..")).

(** A relative path in normal form: components separated by single
    separators, none of them empty, "." or "..".  Two such paths that differ
    as text name different places.  [cur] is the component being read. *)
Fixpoint normal_from (cur s : string) : bool :=
  match s with
  | EmptyString => is_component cur
  | String c r =>
      if is_slash c then is_component cur && normal_from EmptyString r
      else normal_from (cur +:+ String c EmptyString) r
  end.

Definition normal_path (p : string) : bool := normal_from EmptyString p.

(** [with open(path, "wb") as f: f.write(data)]: the path must be one the
    operating system takes (no NUL byte, not too long), the directory part
    must be a directory, the last component must name a file, and an
    existing file is truncated and overwritten. *)
Definition open_wb (path : string) (data : list byte) : py unit :=
  λ w,
    match path_problem path with
    | Some e => (Raised e, w)
    | None =>
        if negb (is_component (basename path)) then (Raised (IsADirectoryError path), w)
        else
          let parent :=
            match dirname path with
            | EmptyString => Some Dir
            | d => disk w !! d
            end in
          match parent with
          | None => (Raised (FileNotFoundError path), w)
          | Some (File _) => (Raised (NotADirectoryError path), w)
          | Some Dir =>
              match disk w !! path with
              | Some Dir => (Raised (IsADirectoryError path), w)
              | _ => (Returned tt, with_disk (<[path := File data]> (disk w)) w)
              end
          end
    end.

(** [with open(path, 'rb') as f: f.read()]. *)
Definition open_rb (path : string) : py (list byte) :=
  λ w, match disk w !! path with
       | Some (File content) => (Returned content, w)
       | Some Dir => (Raised (IsADirectoryError path), w)
       | None => (Raised (FileNotFoundError path), w)
       end.

(** ** The functions of app.py *)

(** Lines 8-32.  Both statements are CREATE TABLE IF NOT EXISTS: on a
    database that has the tables they change nothing. *)
Definition init_db : py unit :=
  execute [];; execute [].

(** A database file that did not exist before [init_db], next to the files
    [cwd] of the working directory. *)
Definition new_database (cwd : gmap string node) (timestamp : string) : world :=
  World [] 0 [] 0 cwd None timestamp [].

(** Lines 38-45. *)
Definition get_all_projects : py (list project_row) :=
  try_except
    (pd_read_sql "SELECT * FROM projects" select_all_from_projects)
    is_Exception
    (λ e, st_error ("Error fetching projects: " +:+ str e);; mret []).

(** Lines 47-58. *)
Definition add_project (name cat person st : string) (start_date end_date : date) : py unit :=
  try_except
    (insert_into_projects name cat person st
       (strftime_Ymd start_date) (strftime_Ymd end_date);;
     st_success "Project added successfully!")
    is_sqlite3_Error
    (λ e, st_error ("Error adding project: " +:+ str e)).

(** Lines 60-71. *)
Definition update_project (i : Z) (name cat person st : string)
    (start_date end_date : date) : py unit :=
  try_except
    (update_projects_where_id name cat person st
       (strftime_Ymd start_date) (strftime_Ymd end_date) i;;
     st_success "Project updated successfully!")
    is_sqlite3_Error
    (λ e, st_error ("Error updating project: " +:+ str e)).

(** Lines 73-81. *)
Definition delete_project (i : Z) : py unit :=
  try_except
    (delete_from_projects_where_id i;;
     st_success "Project deleted successfully!")
    is_sqlite3_Error
    (λ e, st_error ("Error deleting project: " +:+ str e)).

(** Streamlit's [UploadedFile]. *)
Record UploadedFile := Upload { name : string; getbuffer : list byte }.

(** Lines 84-101.  No [try] surrounds the body. *)
Definition upload_file (pid : Z) (uploaded_file : option UploadedFile) : py unit :=
  match uploaded_file with
  | None => mret tt
  | Some f =>
      let directory := "files/project_" +:+ pretty pid +:+ "/" in
      os_makedirs directory;;
      let filepath := os_path_join directory (name f) in
      open_wb filepath (getbuffer f);;
      insert_into_project_files pid (name f) filepath;;
      st_success "File uploaded successfully!"
  end.

(** [row[i]] used as a path. *)
Definition path_at (row : list sqlval) (i : nat) : py string :=
  match row !! i with
  | Some (SqlText s) => mret s
  | Some (SqlInt _) => raise TypeError
  | None => raise IndexError
  end.

(** Lines 103-124.  The row comes from [SELECT *], and the path handed to
    [os.path.exists] and [os.remove] is [row[2]]. *)
Definition delete_file (file_id : Z) : py unit :=
  try_except
    (row ← select_file_where_id file_id;
     match row with
     | None => st_error "File does not exist in the database."
     | Some row =>
         p ← path_at row 2;
         on_disk ← os_path_exists p;
         if on_disk : bool
         then os_remove p;;
              delete_from_project_files_where_id file_id;;
              st_success "File deleted successfully!"
         else st_error "File does not exist on disk."
     end)
    is_Exception
    (λ e, st_error ("Error deleting the file: " +:+ str e)).

(** Python's truth value of a string. *)
Definition truthy (s : string) : bool := negb (bool_decide (s = "")).

(** Lines 170-177: what the add form does when it is submitted. *)
Definition tab2_submit (new_project new_category new_pic new_status : string)
    (start_date end_date : date) : py unit :=
  if truthy new_project && truthy new_pic
  then if (length [start_date; end_date] =? 2)%nat
       then add_project new_project new_category new_pic new_status start_date end_date
       else st_error "Please select both start and end dates."
  else st_error "Project Name and PIC are required!".

Fixpoint for_each {A} (l : list A) (body : A → py unit) : py unit :=
  match l with
  | [] => mret tt
  | x :: rest => body x;; for_each rest body
  end.

(** Lines 258-262: the text of the statement, an f-string of five lines
    with the selected id written into it. *)
Definition tab5_sql (selected : Z) : string :=
  "
            SELECT pf.id, pf.file_name, pf.file_path
            FROM project_files pf
            WHERE pf.project_id = " +:+ pretty selected +:+ "
            ".

(** Lines 257-264: the files of the selected project. *)
Definition tab5_query (selected : Z) : py (list (Z * string * string)) :=
  pd_read_sql (tab5_sql selected) (select_files_where_project_id selected).

(** Lines 268-278: one line of the listing with its download button. *)
Definition tab5_file_row (row : Z * string * string) : py unit :=
  let '(i, fname, fpath) := row in
  st_write fname;;
  data ← open_rb fpath;
  st_download_button "Download" data fname "application/octet-stream"
                     ("download-" +:+ pretty i).

(** Lines 257-282. *)
Definition tab5_files (selected : Z) : py unit :=
  files_df ← tab5_query selected;
  match files_df with
  | [] => st_info "No files found for this project."
  | _ => for_each files_df tab5_file_row
  end.

(** ** Vocabulary of the statements *)

(** The directory of a project and the place of a file in it. *)
Definition project_dir (pid : Z) : string := "files/project_" +:+ pretty pid.

Definition project_path (pid : Z) (n : string) : string :=
  "files/project_" +:+ pretty pid +:+ "/" +:+ n.


(** Nothing on the disk stands in the way of storing a file named [n] for
    project [pid]: no regular file where a directory has to be, no directory
    where the file goes. *)
Definition no_file_at (d : gmap string node) (p : string) : bool :=
  match d !! p with
  | Some (File _) => false
  | _ => true
  end.

Definition no_dir_at (d : gmap string node) (p : string) : bool :=
  match d !! p with
  | Some Dir => false
  | _ => true
  end.

Definition disk_accepts (d : gmap string node) (pid : Z) (n : string) : bool :=
  no_file_at d "files" && no_file_at d (project_dir pid)
  && no_dir_at d (project_path pid n).

(** Rowids are positive and ascend along a table, and none exceeds the
    table's counter: what AUTOINCREMENT maintains. *)
Fixpoint ascending_from (lo : Z) (ids : list Z) : bool :=
  match ids with
  | [] => true
  | i :: rest => (lo <? i) && ascending_from i rest
  end.

Definition table_ok (seq : Z) (ids : list Z) : bool :=
  (0 <=? seq) && ascending_from 0 ids && forallb (λ i, i <=? seq) ids.

Definition db_ok (w : world) : bool :=
  table_ok (seq_projects w) (p_id <$> projects w)
  && table_ok (seq_project_files w) (f_id <$> project_files w).

(** What [os.makedirs] leaves at [p] when no regular file is there. *)
Definition ensure_dir (p : string) (d : gmap string node) : gmap string node :=
  match d !! p with
  | Some _ => d
  | None => <[p := Dir]> d
  end.

(** The working directory of the examples: the script and its logo. *)
Definition example_cwd : gmap string node :=
  <["cistech.png" := File ["137"%byte; "P"%byte; "N"%byte; "G"%byte]]>
    (<["app.py" := File []]> ∅).

Definition example_start : world :=
  new_database example_cwd "2024-01-01 09:00:00".

Definition spec_pdf : UploadedFile :=
  Upload "spec.pdf" ["%"%byte; "P"%byte; "D"%byte; "F"%byte].

Definition run {A} (m : py A) (w : world) : world := snd (m w).

(** The world a successful [upload_file pid (Some f)] leaves. *)
Definition after_upload (pid : Z) (f : UploadedFile) (w : world) : world :=
  let i := next_rowid (seq_project_files w) (f_id <$> project_files w) in
  with_page (page w ++ [Success "File uploaded successfully!"])
    (with_project_files
       (project_files w ++ [FileRow i pid (name f) (project_path pid (name f)) (now w)]) i
       (with_disk
          (<[project_path pid (name f) := File (getbuffer f)]>
             (ensure_dir (project_dir pid) (ensure_dir "files" (disk w))))
          w)).

Definition with_db_fault (fault : option string) (w : world) : world :=
  World (projects w) (seq_projects w) (project_files w) (seq_project_files w)
        (disk w) fault (now w) (page w).

(** One project, then one file uploaded for it. *)
Definition example_project : world :=
  run (add_project "Portal Revamp" "Project" "Alice" "In Progress"
         (Date 2024 1 1) (Date 2024 2 1)) example_start.

Definition example_busy : world :=
  run (upload_file 1 (Some spec_pdf)) example_project.

(** The same file name uploaded a second time, with other bytes. *)
Definition spec_pdf_again : UploadedFile :=
  Upload "spec.pdf" ["v"%byte; "2"%byte].

Definition example_twice : world :=
  run (upload_file 1 (Some spec_pdf_again)) example_busy.

(** A file that has the name of a file of the working directory. *)
Definition logo_upload : UploadedFile :=
  Upload "cistech.png" ["n"%byte; "e"%byte; "w"%byte].

Definition example_logo : world :=
  run (upload_file 1 (Some logo_upload)) example_project.

(** The uploaded file taken off the disk behind the program's back. *)
Definition example_missing_blob : world :=
  with_disk (delete "files/project_1/spec.pdf" (disk example_busy)) example_busy.

(** A directory sits where the upload is to be written. *)
Definition example_blocked : world :=
  with_disk (<["files/project_1/spec.pdf" := Dir]>
               (<["files/project_1" := Dir]> (<["files" := Dir]> (disk example_project))))
            example_project.

(** The database cannot be written. *)
Definition example_locked : world :=
  with_db_fault (Some "database is locked") example_project.

(** The same name uploaded for the same project once per element of
    [contents], in order. *)
Definition upload_each (pid : Z) (n : string) (contents : list (list byte))
    (w : world) : world :=
  foldl (λ w b, run (upload_file pid (Some (Upload n b))) w) w contents.

(** The disk after the two steps of a successful write of [f] for [pid]. *)
Definition disk_with_upload (pid : Z) (f : UploadedFile) (d : gmap string node)
    : gmap string node :=
  <[project_path pid (name f) := File (getbuffer f)]>
    (ensure_dir (project_dir pid) (ensure_dir "files" d)).

(** ** Sequences of calls *)

(** The calls the script makes on behalf of the user, and [delete_file],
    which the module defines.  An exception ends the call, not the
    application: the next call starts from the world the failed one left. *)
Inductive action :=
| SubmitAdd (n c p s : string) (d1 d2 : date)
| AddProject (n c p s : string) (d1 d2 : date)
| UpdateProject (i : Z) (n c p s : string) (d1 d2 : date)
| DeleteProject (i : Z)
| UploadFile (pid : Z) (f : option UploadedFile)
| DeleteFile (i : Z)
| ListProjects
| ListFiles (pid : Z).

Definition perform (a : action) : py unit :=
  match a with
  | SubmitAdd n c p s d1 d2 => tab2_submit n c p s d1 d2
  | AddProject n c p s d1 d2 => add_project n c p s d1 d2
  | UpdateProject i n c p s d1 d2 => update_project i n c p s d1 d2
  | DeleteProject i => delete_project i
  | UploadFile pid f => upload_file pid f
  | DeleteFile i => delete_file i
  | ListProjects => get_all_projects;; mret tt
  | ListFiles pid => tab5_files pid
  end.

Definition perform_all (actions : list action) (w : world) : world :=
  foldl (λ w a, run (perform a) w) w actions.

(** Uploaded files carry plain names. *)
Definition plain_upload (a : action) : bool :=
  match a with
  | UploadFile _ (Some f) => valid_file_name (name f)
  | _ => true
  end.

Definition is_file (d : gmap string node) (p : string) : bool :=
  match d !! p with
  | Some (File _) => true
  | _ => false
  end.

(** Every row of [project_files] has a plain name and a path inside a
    directory, and a regular file is at that path. *)
Definition blobs_ok (w : world) : bool :=
  forallb (λ r, negb (has_slash (file_name r)) && has_slash (file_path r)
                && is_file (disk w) (file_path r))
          (project_files w).

Definition content_at (d : gmap string node) (p : string) : list byte :=
  match d !! p with
  | Some (File b) => b
  | _ => []
  end.

(** What the listing draws for one row. *)
Definition drawn (d : gmap string node) (row : Z * string * string) : list element :=
  [Text row.1.2;
   DownloadButton "Download" (content_at d row.2) row.1.2
     "application/octet-stream" ("download-" +:+ pretty row.1.1)].

(** ** The edit and delete tabs *)

Definition category_options : list string := ["Project"; "Service"].

Definition status_options : list string :=
  ["Not Started"; "Waiting BA"; "Not Report"; "In Progress"; "On Hold"; "Completed"].

(** [l.index(x)]: the first position of [x]; [None] stands for the
    ValueError of a value that is not in the list. *)
Fixpoint list_index (x : string) (l : list string) : option nat :=
  match l with
  | [] => None
  | y :: rest => if bool_decide (y = x) then Some 0%nat else S <$> list_index x rest
  end.

(** How opening the edit form can fail. *)
Inductive form_error :=
| IndexError_iloc
| ValueError_not_in_list (x : string)
| ValueError_time_data (s : string)
| StreamlitValueBelowMinError
| StreamlitValueAboveMaxError.

(** What the widgets of the edit form are pre-populated with. *)
Record edit_form := EditForm {
  category_index : nat;
  projname_value : string;
  pic_value : string;
  status_index : nat;
  start_value : date;
  end_value : date }.

(** [st.date_input(value=(start, end), min_value=today - 365 days,
    max_value=today + 365 days)]: the default range has to lie between the
    two bounds. *)
Definition date_input_check (today start_dt end_dt : date) : option form_error :=
  if toordinal start_dt <? toordinal today - 365 then Some StreamlitValueBelowMinError
  else if toordinal today + 365 <? toordinal end_dt then Some StreamlitValueAboveMaxError
  else None.

(** Lines 190-211: the row of the selected id and the defaults computed
    from it, in the order the script computes them; [today] is
    [datetime.date.today()]. *)
Definition tab3_defaults (today : date) (df : list project_row) (selected_option : Z)
    : form_error + edit_form :=
  match head (filter (λ r, p_id r = selected_option) df) with
  | None => inl IndexError_iloc
  | Some selected_row =>
      match list_index (category selected_row) category_options with
      | None => inl (ValueError_not_in_list (category selected_row))
      | Some ci =>
          match list_index (status selected_row) status_options with
          | None => inl (ValueError_not_in_list (status selected_row))
          | Some si =>
              match strptime_Ymd (date_start selected_row) with
              | None => inl (ValueError_time_data (date_start selected_row))
              | Some start_dt =>
                  match strptime_Ymd (date_end selected_row) with
                  | None => inl (ValueError_time_data (date_end selected_row))
                  | Some end_dt =>
                      match date_input_check today start_dt end_dt with
                      | Some e => inl e
                      | None =>
                          inr (EditForm ci (project_name selected_row)
                                        (pic selected_row) si start_dt end_dt)
                      end
                  end
              end
          end
      end
  end.

(** Lines 215-222: what the edit form does when it is submitted. *)
Definition tab3_submit (selected_option : Z)
    (edit_projname edit_category edit_pic edit_status : string)
    (start_dt end_dt : date) : py unit :=
  if truthy edit_projname && truthy edit_pic
  then if (length [start_dt; end_dt] =? 2)%nat
       then update_project selected_option edit_projname edit_category edit_pic
                           edit_status start_dt end_dt
       else st_error "Please select both start & end dates."
  else st_error "Name of the Project & PIC are required!".

(** Lines 224-239: the delete tab.  The select box offers the listed ids;
    [choice] is the position the user picked and [pressed] tells whether
    the button was pressed in this run. *)
Definition tab4 (choice : nat) (pressed : bool) : py unit :=
  df ← get_all_projects;
  match df with
  | [] => st_info "No projects found."
  | _ =>
      match (p_id <$> df) !! choice with
      | Some delete_selected_option =>
          if pressed then delete_project delete_selected_option else mret tt
      | None => mret tt
      end
  end.

(** Lines 241-284: the files tab, with the position picked in the select
    box, the file in the uploader and whether the button was pressed. *)
Definition tab5 (choice : nat) (uploading_new_file : option UploadedFile)
    (pressed : bool) : py unit :=
  df_projects ← get_all_projects;
  match df_projects with
  | [] => st_info "No projects available to manage files."
  | _ =>
      match (p_id <$> df_projects) !! choice with
      | Some selected_project_for_files =>
          (if pressed then upload_file selected_project_for_files uploading_new_file
           else mret tt);;
          tab5_files selected_project_for_files
      | None => mret tt
      end
  end.

(** An upload whose name is an absolute path, and a world in which the
    directory of that path exists. *)
Definition root_upload : UploadedFile := Upload "/tmp/motd.pdf" ["!"%byte].

Definition example_tmp : world :=
  with_disk (<["/tmp" := Dir]> (disk example_project)) example_project.

(** The directory an absolute path is to be written in is there. *)
Definition parent_is_dir (d : gmap string node) (path : string) : bool :=
  match dirname path with
  | EmptyString => true
  | parent => match d !! parent with
              | Some Dir => true
              | _ => false
              end
  end.



(** The specification's rendering of a date, YYYY-MM-DD. *)
Definition iso_YMD (d : date) : string :=
  pad4 (year d) +:+ "-" +:+ pad2 (month d) +:+ "-" +:+ pad2 (day d).

(** * Properties *)

(** ** Paths *)

#[local] Arguments String.append !_ _ : simpl nomatch.

Lemma append_assoc (a b c : string) : (a +:+ b) +:+ c = a +:+ (b +:+ c).
Proof. induction a as [|x a IH]; [done | cbn; by f_equal]. Qed.

Lemma append_empty_r (a : string) : a +:+ "" = a.
Proof. induction a as [|x a IH]; [done | cbn; by f_equal]. Qed.

Lemma has_slash_append (a b : string) :
  has_slash (a +:+ b) = has_slash a || has_slash b.
Proof.
  induction a as [|x a IH]; simpl; [done |].
  destruct (is_slash x); [done | exact IH].
Qed.

Lemma ends_with_slash_append (a : string) : ends_with_slash (a +:+ "/") = true.
Proof.
  induction a as [|x a IH]; simpl; [done |].
  destruct (a +:+ "/") eqn:E; [by destruct a | exact IH].
Qed.

Lemma dirname_append (d n : string) :
  has_slash n = false → dirname (d +:+ "/" +:+ n) = d.
Proof.
  intros Hn. induction d as [|x d IH]; simpl in *.
  - by rewrite Hn.
  - rewrite has_slash_append. simpl. rewrite orb_true_r. by rewrite IH.
Qed.

Lemma basename_no_slash (n : string) : has_slash n = false → basename n = n.
Proof.
  destruct n as [|y n]; [done |]. intros Hn.
  unfold basename; fold basename. by rewrite Hn.
Qed.

Lemma basename_append (d n : string) :
  has_slash n = false → basename (d +:+ "/" +:+ n) = n.
Proof.
  intros Hn. induction d as [|x d IH]; simpl in *.
  - by apply basename_no_slash.
  - rewrite has_slash_append. simpl. rewrite orb_true_r.
    by destruct (is_slash x).
Qed.

Lemma dir_prefixes_from_component (pre cur t rest : string) :
  has_slash t = false →
  dir_prefixes_from pre cur (t +:+ rest) = dir_prefixes_from pre (cur +:+ t) rest.
Proof.
  revert cur. induction t as [|x t IH]; intros cur Ht; simpl in *.
  - by rewrite append_empty_r.
  - destruct (is_slash x); [done |].
    rewrite IH by done. by rewrite append_assoc.
Qed.

(** Decimal numerals contain no separator. *)
Lemma pretty_N_char_no_slash (x : N) : is_slash (pretty_N_char x) = false.
Proof. unfold pretty_N_char. by repeat case_match. Qed.

Lemma pretty_N_go_no_slash (x : N) (s : string) :
  has_slash s = false → has_slash (pretty_N_go x s) = false.
Proof.
  revert s. induction (N.lt_wf_0 x) as [x _ IH]. intros s Hs.
  destruct (decide (x = 0)%N) as [-> | Hx]; [by rewrite pretty_N_go_0 |].
  rewrite pretty_N_go_step by lia.
  apply IH; [apply N.div_lt; lia |].
  simpl. by rewrite pretty_N_char_no_slash.
Qed.

Lemma pretty_Z_no_slash (z : Z) : has_slash (pretty z) = false.
Proof.
  assert (∀ p : positive, has_slash (pretty p) = false) as Hp.
  { intros p. unfold pretty, pretty_positive, pretty, pretty_N.
    case_decide; [done | by apply pretty_N_go_no_slash]. }
  destruct z as [|p|p]; [done | apply Hp |].
  change (has_slash ("-" +:+ pretty p) = false). simpl. apply Hp.
Qed.

Lemma project_path_dir (pid : Z) (n : string) :
  project_path pid n = project_dir pid +:+ "/" +:+ n.
Proof. unfold project_path, project_dir. by rewrite !append_assoc. Qed.

Lemma dir_prefixes_project (pid : Z) :
  dir_prefixes ("files/project_" +:+ pretty pid +:+ "/") = ["files"; project_dir pid].
Proof.
  unfold dir_prefixes, project_dir. simpl.
  rewrite dir_prefixes_from_component by apply pretty_Z_no_slash.
  simpl. by destruct (pretty pid).
Qed.

Lemma join_project_dir (pid : Z) (n : string) :
  starts_with_slash n = false →
  os_path_join ("files/project_" +:+ pretty pid +:+ "/") n = project_path pid n.
Proof.
  intros Hn. unfold os_path_join. rewrite Hn.
  rewrite <- (append_assoc "files/project_" (pretty pid) "/").
  rewrite ends_with_slash_append. unfold project_path. by rewrite !append_assoc.
Qed.

Lemma valid_file_name_spec (n : string) :
  valid_file_name n = true →
  has_slash n = false ∧ starts_with_slash n = false ∧ is_component n = true.
Proof.
  unfold valid_file_name, is_component. intros H.
  repeat (apply andb_prop in H as [H ?]).
  apply negb_true_iff in H. split; [done |]. split.
  - destruct n as [|c n]; [done |]. simpl in *. by destruct (is_slash c).
  - repeat (apply andb_true_intro; split); done.
Qed.

Lemma dirname_project_dir (pid : Z) : dirname (project_dir pid) = "files".
Proof.
  change (project_dir pid) with ("files" +:+ "/" +:+ ("project_" +:+ pretty pid)).
  apply dirname_append. rewrite has_slash_append. simpl. apply pretty_Z_no_slash.
Qed.

Lemma project_dir_not_files (pid : Z) : project_dir pid ≠ "files".
Proof. unfold project_dir. simpl. discriminate. Qed.

Lemma project_path_not_dir (pid : Z) (n : string) :
  has_slash n = false → project_path pid n ≠ project_dir pid.
Proof.
  intros Hn E. apply (f_equal dirname) in E.
  rewrite project_path_dir, dirname_append, dirname_project_dir in E by done.
  by apply project_dir_not_files in E.
Qed.

Lemma project_path_not_files (pid : Z) (n : string) : project_path pid n ≠ "files".
Proof. unfold project_path. simpl. discriminate. Qed.

(** ** Paths the operating system takes *)

Lemma has_nul_append (a b : string) : has_nul (a +:+ b) = has_nul a || has_nul b.
Proof.
  induction a as [|x a IH]; simpl; [done |].
  destruct (is_nul x); [done | exact IH].
Qed.

Lemma strlen_append (a b : string) : strlen (a +:+ b) = strlen a + strlen b.
Proof.
  unfold strlen. induction a as [|x a IH]; simpl String.length; [lia |].
  rewrite !Nat2Z.inj_succ. lia.
Qed.

Lemma long_component_from_append (cur : Z) (t rest : string) :
  has_slash t = false →
  long_component_from cur (t +:+ rest) = long_component_from (cur + strlen t) rest.
Proof.
  revert cur. induction t as [|x t IH]; intros cur Ht; simpl in *.
  - f_equal. unfold strlen. simpl. lia.
  - destruct (is_slash x); [done |]. rewrite IH by done.
    f_equal. unfold strlen. simpl String.length. rewrite Nat2Z.inj_succ. lia.
Qed.

Lemma long_component_plain (cur : Z) (t : string) :
  has_slash t = false → long_component_from cur t = (255 <? cur + strlen t).
Proof.
  intros Ht. rewrite <- (append_empty_r t) at 1.
  by rewrite long_component_from_append.
Qed.

Lemma pretty_N_char_no_nul (x : N) : is_nul (pretty_N_char x) = false.
Proof. unfold pretty_N_char. by repeat case_match. Qed.

Lemma pretty_N_go_no_nul (x : N) (s : string) :
  has_nul s = false → has_nul (pretty_N_go x s) = false.
Proof.
  revert s. induction (N.lt_wf_0 x) as [x _ IH]. intros s Hs.
  destruct (decide (x = 0)%N) as [-> | Hx]; [by rewrite pretty_N_go_0 |].
  rewrite pretty_N_go_step by lia.
  apply IH; [apply N.div_lt; lia |].
  simpl. by rewrite pretty_N_char_no_nul.
Qed.

Lemma pretty_Z_no_nul (z : Z) : has_nul (pretty z) = false.
Proof.
  assert (∀ p : positive, has_nul (pretty p) = false) as Hp.
  { intros p. unfold pretty, pretty_positive, pretty, pretty_N.
    case_decide; [done | by apply pretty_N_go_no_nul]. }
  destruct z as [|p|p]; [done | apply Hp |].
  change (has_nul ("-" +:+ pretty p) = false). simpl. apply Hp.
Qed.

(** A number below 10^k is printed with at most k digits. *)
Lemma pretty_N_go_length (k : nat) (x : N) (s : string) :
  (x < 10 ^ N.of_nat k)%N → strlen (pretty_N_go x s) ≤ strlen s + Z.of_nat k.
Proof.
  revert x s. induction k as [| k IH]; intros x s Hx.
  - assert (x = 0%N) as -> by (simpl in Hx; lia). rewrite pretty_N_go_0. lia.
  - destruct (decide (x = 0)%N) as [-> | Hne]; [rewrite pretty_N_go_0; lia |].
    rewrite pretty_N_go_step by lia.
    etrans; [apply IH |].
    + rewrite Nat2N.inj_succ, N.pow_succ_r' in Hx.
      apply N.Div0.div_lt_upper_bound. lia.
    + unfold strlen. simpl String.length. lia.
Qed.

Lemma pretty_Z_length (z : Z) : in_int64 z = true → strlen (pretty z) ≤ 20.
Proof.
  unfold in_int64. intros [Hlo Hhi]%andb_prop.
  apply Z.leb_le in Hlo. apply Z.ltb_lt in Hhi.
  assert (∀ p : positive, (Npos p < 10 ^ N.of_nat 19)%N → strlen (pretty p) ≤ 19) as Hp.
  { intros p Hlt. unfold pretty, pretty_positive, pretty, pretty_N.
    case_decide; [done |].
    etrans; [by apply (pretty_N_go_length 19) |]. unfold strlen. simpl. lia. }
  destruct z as [|p|p].
  - unfold strlen. simpl. lia.
  - apply Z.le_trans with 19; [| lia]. apply Hp. lia.
  - change (strlen ("-" +:+ pretty p) ≤ 20). rewrite strlen_append.
    assert (strlen (pretty p) ≤ 19) by (apply Hp; lia).
    unfold strlen at 1. simpl. lia.
Qed.

(** ** Dates *)

#[local] Arguments digit : simpl never.
#[local] Arguments digit_value : simpl never.

Lemma digit_facts (n : Z) :
  digit_value (digit n) = Some (n mod 10) ∧ Ascii.eqb (digit n) " " = false.
Proof.
  unfold digit.
  assert (0 ≤ n mod 10 < 10) as Hk by (apply Z.mod_pos_bound; lia).
  assert (n mod 10 = 0 ∨ n mod 10 = 1 ∨ n mod 10 = 2 ∨ n mod 10 = 3 ∨ n mod 10 = 4
          ∨ n mod 10 = 5 ∨ n mod 10 = 6 ∨ n mod 10 = 7 ∨ n mod 10 = 8 ∨ n mod 10 = 9)
    as Hc by lia.
  repeat destruct Hc as [-> | Hc]; try rewrite Hc; by vm_compute.
Qed.

Lemma decimal4 (y : Z) : 0 ≤ y < 10000 →
  1000 * ((y / 1000) mod 10) + 100 * ((y / 100) mod 10) + 10 * ((y / 10) mod 10) + y mod 10 = y.
Proof. intros H. Z.to_euclidean_division_equations. lia. Qed.

Lemma decimal2 (m : Z) : 0 ≤ m < 100 → 10 * ((m / 10) mod 10) + m mod 10 = m.
Proof. intros H. Z.to_euclidean_division_equations. lia. Qed.

Lemma days_in_month_bound y m : days_in_month y m ≤ 31.
Proof. unfold days_in_month. repeat case_match; lia. Qed.

Lemma number_upto2_pad2 (n : Z) (r : string) :
  0 ≤ n < 100 →
  number_upto2 (pad2 n +:+ r) = Some (n, r).
Proof.
  intros Hn. unfold pad2, number_upto2. cbn [String.append].
  destruct (digit_facts (n / 10)) as [-> _], (digit_facts n) as [-> _].
  by rewrite decimal2.
Qed.

Lemma expect_dash_cons (r : string) : expect_dash (String "-" r) = Some r.
Proof. reflexivity. Qed.

Lemma day_field_pad2 (n : Z) : 0 ≤ n < 100 → day_field (pad2 n) = Some (n, "").
Proof.
  intros Hn. rewrite <- (number_upto2_pad2 n "") by done.
  unfold pad2 at 1. unfold day_field.
  destruct (digit_facts (n / 10)) as [_ ->]. reflexivity.
Qed.

Lemma year_text_four (y : Z) : 1000 ≤ y → year_text y = pad4 y.
Proof.
  intros Hy. unfold year_text.
  destruct (Z.ltb_spec y 10); [lia |].
  destruct (Z.ltb_spec y 100); [lia |].
  destruct (Z.ltb_spec y 1000); [lia | done].
Qed.

Lemma strftime_iso (d : date) : 1000 ≤ year d → strftime_Ymd d = iso_YMD d.
Proof. intros Hy. unfold strftime_Ymd, iso_YMD. by rewrite year_text_four. Qed.

(** Before the year 1000 the stored text has no four digits of year, and
    [strptime] does not take it. *)
Lemma strptime_short_year (d : date) :
  year d < 1000 → strptime_Ymd (strftime_Ymd d) = None.
Proof.
  intros Hy. unfold strftime_Ymd, year_text.
  destruct (Z.ltb_spec (year d) 10).
  { unfold pad2, strptime_Ymd. cbn [String.append].
    destruct (digit_facts (year d)) as [-> _]. reflexivity. }
  destruct (Z.ltb_spec (year d) 100).
  { unfold pad2, strptime_Ymd. cbn [String.append].
    destruct (digit_facts (year d / 10)) as [-> _], (digit_facts (year d)) as [-> _].
    reflexivity. }
  destruct (Z.ltb_spec (year d) 1000); [| lia].
  unfold pad2, strptime_Ymd. cbn [String.append].
  destruct (digit_facts (year d / 100)) as [-> _], (digit_facts (year d / 10)) as [-> _],
    (digit_facts (year d)) as [-> _].
  reflexivity.
Qed.

Lemma strptime_strftime (d : date) :
  valid_date d = true → 1000 ≤ year d → strptime_Ymd (strftime_Ymd d) = Some d.
Proof.
  intros Hv Hy. pose proof Hv as Hv'. unfold valid_date in Hv'.
  repeat (apply andb_prop in Hv' as [Hv' ?]).
  pose proof (days_in_month_bound (year d) (month d)).
  unfold strftime_Ymd. rewrite year_text_four by done.
  unfold strptime_Ymd, pad4. unfold pad2 at 1.
  cbn [String.append].
  destruct (digit_facts (year d / 1000)) as [-> _], (digit_facts (year d / 100)) as [-> _].
  destruct (digit_facts (year d / 10)) as [-> _], (digit_facts (year d)) as [-> _].
  cbn [mbind option_bind]. rewrite expect_dash_cons. cbn [mbind option_bind].
  rewrite number_upto2_pad2 by lia. cbn [mbind option_bind].
  rewrite expect_dash_cons. cbn [mbind option_bind].
  rewrite day_field_pad2 by lia. cbn [mbind option_bind].
  rewrite decimal4 by lia.
  destruct d as [y m dd]. cbn [year month day] in *. by rewrite Hv.
Qed.

(** ** Running the primitives *)

Lemma execute_ok (params : list sqlval) (w : world) :
  forallb bindable params = true → db_fault w = None →
  execute params w = (Returned tt, w).
Proof. intros Hb H. unfold execute. by rewrite Hb, H. Qed.

Lemma execute_fault (params : list sqlval) (w : world) (msg : string) :
  forallb bindable params = true → db_fault w = Some msg →
  execute params w = (Raised (sqlite3_Error msg), w).
Proof. intros Hb H. unfold execute. by rewrite Hb, H. Qed.

Lemma execute_overflow (params : list sqlval) (w : world) :
  forallb bindable params = false → execute params w = (Raised OverflowError, w).
Proof. intros Hb. unfold execute. by rewrite Hb. Qed.

Ltac unfold_py :=
  unfold get_all_projects, add_project, update_project, delete_project,
    delete_file, tab5_query, tab5_files, tab2_submit, init_db,
    pd_read_sql, insert_into_projects, update_projects_where_id,
    delete_from_projects_where_id, select_all_from_projects,
    insert_into_project_files, select_file_where_id,
    delete_from_project_files_where_id, select_files_where_project_id,
    st_success, st_error, st_info, st_write, st_download_button, emit_element,
    try_except, raise, get_world, put_world, mbind, mret, py_bind, py_ret.

(** The parameters of the statement at hand can be bound: texts always,
    integers by an assumption of the context. *)
Ltac bind_ok :=
  cbn [forallb bindable andb]; rewrite ?andb_true_r; first [done | assumption].

Ltac run_py H := unfold_py; rewrite ?execute_ok by first [exact H | bind_ok]; cbn.

Ltac run_fault H :=
  unfold_py; erewrite execute_fault by first [exact H | bind_ok]; cbn.

Lemma add_project_ok (w : world) (n c p s : string) (d1 d2 : date) :
  db_fault w = None →
  add_project n c p s d1 d2 w =
    (Returned tt,
     with_page (page w ++ [Success "Project added successfully!"])
       (with_projects
          (projects w ++ [ProjectRow (next_rowid (seq_projects w) (p_id <$> projects w))
                            n c p s (strftime_Ymd d1) (strftime_Ymd d2)])
          (next_rowid (seq_projects w) (p_id <$> projects w)) w)).
Proof. intros H. run_py H. reflexivity. Qed.

Lemma get_all_projects_ok (w : world) :
  db_fault w = None → get_all_projects w = (Returned (projects w), w).
Proof. intros H. run_py H. reflexivity. Qed.

Lemma update_project_ok (w : world) (i : Z) (n c p s : string) (d1 d2 : date) :
  in_int64 i = true → db_fault w = None →
  update_project i n c p s d1 d2 w =
    (Returned tt,
     with_page (page w ++ [Success "Project updated successfully!"])
       (with_projects
          ((λ r, if bool_decide (p_id r = i)
                 then ProjectRow (p_id r) n c p s (strftime_Ymd d1) (strftime_Ymd d2)
                 else r) <$> projects w)
          (seq_projects w) w)).
Proof. intros Hi H. run_py H. reflexivity. Qed.

Lemma delete_project_ok (w : world) (i : Z) :
  in_int64 i = true → db_fault w = None →
  delete_project i w =
    (Returned tt,
     with_page (page w ++ [Success "Project deleted successfully!"])
       (with_projects (filter (λ r, p_id r ≠ i) (projects w)) (seq_projects w) w)).
Proof. intros Hi H. run_py H. reflexivity. Qed.

Lemma update_project_overflow (w : world) (i : Z) (n c p s : string) (d1 d2 : date) :
  in_int64 i = false →
  update_project i n c p s d1 d2 w = (Raised OverflowError, w).
Proof.
  intros Hi. unfold_py. rewrite execute_overflow; [reflexivity |].
  cbn [forallb bindable andb]. by rewrite Hi.
Qed.

Lemma delete_project_overflow (w : world) (i : Z) :
  in_int64 i = false → delete_project i w = (Raised OverflowError, w).
Proof.
  intros Hi. unfold_py. rewrite execute_overflow; [reflexivity |].
  cbn [forallb bindable andb]. by rewrite Hi.
Qed.

(** ** Projects *)

(** C1, as amended.  A valid submission of the add form (name and PIC not
    empty, two calendar dates of the years 1000 to 9999, the database
    answering) reaches [add_project], which returns normally; listing the
    projects afterwards yields the rows that were there followed by one new
    row that carries the name, category, PIC and status given and the two
    dates as YYYY-MM-DD, text that the edit form parses back to the dates
    given.  On a table that is empty and has never held a row, the new row
    is the only one and its id is 1. *)
Theorem add_project_then_list (w : world) (n c p s : string) (d1 d2 : date) :
  n ≠ "" → p ≠ "" → valid_date d1 = true → valid_date d2 = true →
  1000 ≤ year d1 → 1000 ≤ year d2 →
  db_fault w = None →
  ∃ (w' : world) (r : project_row),
    tab2_submit n c p s d1 d2 w = (Returned tt, w')
    ∧ add_project n c p s d1 d2 w = (Returned tt, w')
    ∧ get_all_projects w' = (Returned (projects w ++ [r]), w')
    ∧ r ∈ projects w ++ [r]
    ∧ project_name r = n ∧ category r = c ∧ pic r = p ∧ status r = s
    ∧ date_start r = iso_YMD d1 ∧ date_end r = iso_YMD d2
    ∧ strptime_Ymd (date_start r) = Some d1
    ∧ strptime_Ymd (date_end r) = Some d2
    ∧ (projects w = [] → seq_projects w = 0 → projects w ++ [r] = [r] ∧ p_id r = 1).
Proof.
  intros Hn Hp Hd1 Hd2 Hy1 Hy2 Hdb.
  eexists _, (ProjectRow (next_rowid (seq_projects w) (p_id <$> projects w))
                n c p s (strftime_Ymd d1) (strftime_Ymd d2)).
  split.
  { unfold tab2_submit, truthy.
    rewrite !bool_decide_eq_false_2 by done. cbn [negb andb length Nat.eqb].
    by apply add_project_ok. }
  split; [by apply add_project_ok |].
  split; [by rewrite get_all_projects_ok |].
  split; [set_solver |].
  cbn [project_name category pic status date_start date_end p_id].
  repeat (split; [done |]).
  split; [by apply strftime_iso |].
  split; [by apply strftime_iso |].
  split; [by apply strptime_strftime |].
  split; [by apply strptime_strftime |].
  intros -> ->. done.
Qed.

Lemma add_project_then_list_witness :
  ∃ (w' : world) (r : project_row),
    tab2_submit "Portal Revamp" "Project" "Alice" "In Progress"
      (Date 2024 1 1) (Date 2024 2 1) example_start = (Returned tt, w')
    ∧ add_project "Portal Revamp" "Project" "Alice" "In Progress"
        (Date 2024 1 1) (Date 2024 2 1) example_start = (Returned tt, w')
    ∧ get_all_projects w' = (Returned (projects example_start ++ [r]), w')
    ∧ r ∈ projects example_start ++ [r]
    ∧ project_name r = "Portal Revamp" ∧ category r = "Project"
    ∧ pic r = "Alice" ∧ status r = "In Progress"
    ∧ date_start r = iso_YMD (Date 2024 1 1)
    ∧ date_end r = iso_YMD (Date 2024 2 1)
    ∧ strptime_Ymd (date_start r) = Some (Date 2024 1 1)
    ∧ strptime_Ymd (date_end r) = Some (Date 2024 2 1)
    ∧ (projects example_start = [] → seq_projects example_start = 0 →
       projects example_start ++ [r] = [r] ∧ p_id r = 1).
Proof.
  apply (add_project_then_list example_start "Portal Revamp" "Project" "Alice"
           "In Progress" (Date 2024 1 1) (Date 2024 2 1));
    [discriminate | discriminate | reflexivity | reflexivity
    | simpl; lia | simpl; lia | reflexivity].
Defined.

(** C1 as it was stated fails before the year 1000: [add_project] with the
    calendar date 987-12-01 stores the text 987-12-01, no row of the listing
    carries the date as YYYY-MM-DD, and the edit form cannot read the stored
    text back. *)
Lemma add_project_before_year_1000 :
  valid_date (Date 987 12 1) = true ∧ valid_date (Date 987 12 31) = true
  ∧ fst (get_all_projects
           (run (add_project "Portal Revamp" "Project" "Alice" "In Progress"
                   (Date 987 12 1) (Date 987 12 31)) example_start))
    = Returned [ProjectRow 1 "Portal Revamp" "Project" "Alice" "In Progress"
                  "987-12-01" "987-12-31"]
  ∧ iso_YMD (Date 987 12 1) = "0987-12-01"
  ∧ ¬ (∃ r : project_row,
         r ∈ projects (run (add_project "Portal Revamp" "Project" "Alice" "In Progress"
                              (Date 987 12 1) (Date 987 12 31)) example_start)
         ∧ date_start r = iso_YMD (Date 987 12 1))
  ∧ strptime_Ymd "987-12-01" = None.
Proof.
  repeat split; try reflexivity.
  intros (r & Hr & Hd). vm_compute in Hr.
  apply elem_of_cons in Hr as [-> | Hr]; [discriminate | by apply not_elem_of_nil in Hr].
Qed.

(** The scenario of the specification, run: the first project of a new
    database is listed alone, with id 1. *)
Example portal_revamp_listed :
  fst (get_all_projects
         (run (add_project "Portal Revamp" "Project" "Alice" "In Progress"
                 (Date 2024 1 1) (Date 2024 2 1)) example_start))
  = Returned [ProjectRow 1 "Portal Revamp" "Project" "Alice" "In Progress"
                "2024-01-01" "2024-02-01"].
Proof. reflexivity. Qed.

(** An emptied table is not a new one: AUTOINCREMENT does not give the id of
    a deleted row again. *)
Example id_not_reused :
  let w1 := run (add_project "A" "Project" "Alice" "On Hold"
                   (Date 2024 1 1) (Date 2024 2 1)) example_start in
  let w2 := run (delete_project 1) w1 in
  let w3 := run (add_project "B" "Service" "Bob" "Completed"
                   (Date 2024 3 1) (Date 2024 4 1)) w2 in
  projects w2 = [] ∧ p_id <$> projects w3 = [2].
Proof. split; reflexivity. Qed.

(** C4 as it was stated fails for an id that SQLite cannot hold:
    [update_project] with the id 2^63, which no row has, does not succeed
    silently.  Binding the id raises OverflowError, which is no
    [sqlite3.Error], so the handler does not catch it and nothing is
    reported. *)
Lemma update_project_id_out_of_range :
  Forall (λ r, p_id r ≠ 2 ^ 63) (projects example_busy)
  ∧ update_project (2 ^ 63) "X" "Service" "Bob" "On Hold"
      (Date 2024 5 1) (Date 2024 6 1) example_busy
    = (Raised OverflowError, example_busy).
Proof. split; [repeat constructor; discriminate | reflexivity]. Qed.

(** C4, as amended.  For an id that SQLite can hold (a 64-bit integer) and
    two calendar dates of the years 1000 to 9999, with the database
    answering: [update_project] on an id that no row has returns normally,
    reports success, and leaves the table as it was.  In general the table
    keeps its length and order: the row at each position keeps its id and
    takes the new name, category, PIC, status and the dates as YYYY-MM-DD
    when its id is the one given, and is untouched otherwise.  The files
    table, the disk and the id counter are not changed. *)
Theorem update_project_frame (w : world) (i : Z) (n c p s : string) (d1 d2 : date) :
  in_int64 i = true → valid_date d1 = true → valid_date d2 = true →
  1000 ≤ year d1 → 1000 ≤ year d2 →
  db_fault w = None →
  ∃ w' : world,
    update_project i n c p s d1 d2 w = (Returned tt, w')
    ∧ page w' = page w ++ [Success "Project updated successfully!"]
    ∧ (i ∉ (p_id <$> projects w) → projects w' = projects w)
    ∧ length (projects w') = length (projects w)
    ∧ (∀ (k : nat) (r : project_row), projects w !! k = Some r →
         projects w' !! k =
           Some (if bool_decide (p_id r = i)
                 then ProjectRow i n c p s (iso_YMD d1) (iso_YMD d2)
                 else r))
    ∧ seq_projects w' = seq_projects w
    ∧ project_files w' = project_files w
    ∧ seq_project_files w' = seq_project_files w
    ∧ disk w' = disk w.
Proof.
  intros Hi _ _ Hy1 Hy2 Hdb. eexists. split; [by apply update_project_ok |].
  cbn [page projects seq_projects project_files seq_project_files disk
       with_page with_projects].
  split; [done |]. split.
  { intros Habs. apply list_eq. intros k. rewrite list_lookup_fmap.
    destruct (projects w !! k) as [r |] eqn:Hk; [| done]. cbn.
    rewrite bool_decide_eq_false_2; [done |].
    intros <-. apply Habs, list_elem_of_fmap. exists r. split; [done |].
    by eapply list_elem_of_lookup_2. }
  split; [by rewrite length_fmap |]. split; [| done].
  intros k r Hk. rewrite list_lookup_fmap, Hk. cbn.
  rewrite !strftime_iso by done.
  by case_bool_decide; subst.
Qed.

Lemma update_project_frame_witness :
  ∃ w' : world,
    update_project 7 "X" "Service" "Bob" "On Hold" (Date 2024 5 1) (Date 2024 6 1)
      (run (add_project "Portal Revamp" "Project" "Alice" "In Progress"
              (Date 2024 1 1) (Date 2024 2 1)) example_start)
    = (Returned tt, w')
    ∧ projects w' =
        [ProjectRow 1 "Portal Revamp" "Project" "Alice" "In Progress"
           "2024-01-01" "2024-02-01"].
Proof.
  assert (1000 ≤ 2024) as Hy by lia.
  destruct (update_project_frame
              (run (add_project "Portal Revamp" "Project" "Alice" "In Progress"
                      (Date 2024 1 1) (Date 2024 2 1)) example_start)
              7 "X" "Service" "Bob" "On Hold" (Date 2024 5 1) (Date 2024 6 1)
              eq_refl eq_refl eq_refl Hy Hy eq_refl)
    as (w' & Hrun & _ & Hsame & _).
  exists w'. split; [exact Hrun |].
  rewrite Hsame; [reflexivity |].
  vm_compute. intros H. by repeat (inversion H as [| ? ? ? H']; clear H; rename H' into H).
Defined.



(** C6 as it was stated fails: [add_project] itself checks nothing.  Called
    with an empty name and an empty PIC it returns normally, reports success
    and inserts the row. *)
Lemma add_project_does_not_validate :
  add_project "" "Project" "" "Not Started" (Date 2024 1 1) (Date 2024 2 1) example_start
  = (Returned tt,
     with_page (page example_start ++ [Success "Project added successfully!"])
       (with_projects
          [ProjectRow 1 "" "Project" "" "Not Started" "2024-01-01" "2024-02-01"] 1
          example_start)).
Proof. reflexivity. Qed.

(** C6, as amended.  The add form, which is the caller of [add_project],
    checks the two required fields before the call: when the name or the
    PIC is empty the submission ends with the error message "Project Name
    and PIC are required!", no success is reported, and the world is
    otherwise untouched, so no row is inserted. *)
Theorem tab2_submit_requires_name_and_pic
    (w : world) (n c p s : string) (d1 d2 : date) :
  n = "" ∨ p = "" →
  tab2_submit n c p s d1 d2 w
  = (Returned tt, with_page (page w ++ [Error "Project Name and PIC are required!"]) w)
  ∧ projects (run (tab2_submit n c p s d1 d2) w) = projects w
  ∧ seq_projects (run (tab2_submit n c p s d1 d2) w) = seq_projects w.
Proof.
  intros Hempty.
  assert (truthy n && truthy p = false) as Hcheck.
  { unfold truthy. destruct Hempty as [-> | ->]; [done |].
    by rewrite andb_false_r. }
  unfold run, tab2_submit. rewrite Hcheck. done.
Qed.

Lemma tab2_submit_requires_name_and_pic_witness :
  tab2_submit "Portal Revamp" "Project" "" "In Progress"
    (Date 2024 1 1) (Date 2024 2 1) example_start
  = (Returned tt,
     with_page (page example_start ++ [Error "Project Name and PIC are required!"])
       example_start)
  ∧ projects (run (tab2_submit "Portal Revamp" "Project" "" "In Progress"
                     (Date 2024 1 1) (Date 2024 2 1)) example_start)
    = projects example_start
  ∧ seq_projects (run (tab2_submit "Portal Revamp" "Project" "" "In Progress"
                         (Date 2024 1 1) (Date 2024 2 1)) example_start)
    = seq_projects example_start.
Proof.
  apply (tab2_submit_requires_name_and_pic example_start "Portal Revamp" "Project" ""
           "In Progress" (Date 2024 1 1) (Date 2024 2 1)).
  right. reflexivity.
Defined.

(** ** Files *)

(** C9.  [upload_file] with no file returns at once: nothing is written,
    no row is inserted, nothing is shown; the world is the same. *)
Theorem upload_file_none (w : world) (pid : Z) :
  upload_file pid None w = (Returned tt, w).
Proof. reflexivity. Qed.

(** ** Writing an upload *)

Lemma storable_name_spec (n : string) :
  storable_name n = true →
  valid_file_name n = true ∧ has_nul n = false ∧ strlen n ≤ 255.
Proof.
  unfold storable_name. intros [[Hv Hn]%andb_prop Hl]%andb_prop.
  apply negb_true_iff in Hn. apply Z.leb_le in Hl. done.
Qed.

Lemma path_problem_None (p : string) :
  has_nul p = false → strlen p ≤ 4095 → long_component_from 0 p = false →
  path_problem p = None.
Proof.
  intros Hn Hl Hc. unfold path_problem, path_too_long. rewrite Hn, Hc.
  destruct (Z.ltb_spec 4095 (strlen p)); [lia | done].
Qed.

Lemma path_problem_project_dir (pid : Z) :
  in_int64 pid = true → path_problem (project_dir pid) = None.
Proof.
  intros Hpid. pose proof (pretty_Z_length pid Hpid) as Hlen.
  assert (0 ≤ strlen (pretty pid)) as Hpos by (unfold strlen; lia).
  unfold project_dir. apply path_problem_None.
  - rewrite has_nul_append, pretty_Z_no_nul. reflexivity.
  - rewrite strlen_append. change (strlen "files/project_") with 14. lia.
  - change (long_component_from 8 (pretty pid) = false).
    rewrite long_component_plain by apply pretty_Z_no_slash.
    apply Z.ltb_ge. lia.
Qed.

Lemma path_problem_project_path (pid : Z) (n : string) :
  in_int64 pid = true → storable_name n = true →
  path_problem (project_path pid n) = None.
Proof.
  intros Hpid (Hv & Hnul & Hlen)%storable_name_spec.
  pose proof (valid_file_name_spec _ Hv) as (Hslash & _ & _).
  pose proof (pretty_Z_length pid Hpid) as Hplen.
  assert (0 ≤ strlen (pretty pid)) as Hpos by (unfold strlen; lia).
  assert (0 ≤ strlen n) as Hnpos by (unfold strlen; lia).
  unfold project_path. apply path_problem_None.
  - rewrite !has_nul_append, pretty_Z_no_nul, Hnul. reflexivity.
  - rewrite !strlen_append. change (strlen "files/project_") with 14.
    change (strlen "/") with 1. lia.
  - change (long_component_from 8 (pretty pid +:+ "/" +:+ n) = false).
    rewrite long_component_from_append by apply pretty_Z_no_slash.
    change (long_component_from (8 + strlen (pretty pid)) ("/" +:+ n))
      with ((255 <? 8 + strlen (pretty pid)) || long_component_from 0 n).
    rewrite long_component_plain by done.
    apply orb_false_intro; apply Z.ltb_ge; lia.
Qed.

Lemma ensure_dir_lookup (d : gmap string node) (p : string) :
  no_file_at d p = true → ensure_dir p d !! p = Some Dir.
Proof.
  unfold no_file_at, ensure_dir.
  destruct (d !! p) as [[] |] eqn:E; [done | done |].
  intros _. apply lookup_insert_eq.
Qed.

Lemma ensure_dir_lookup_ne (d : gmap string node) (p q : string) :
  p ≠ q → ensure_dir p d !! q = d !! q.
Proof.
  intros Hne. unfold ensure_dir.
  destruct (d !! p); [done | by apply lookup_insert_ne].
Qed.

Lemma mkdir_each_cons (target p : string) (rest : list string) (w : world) :
  path_problem p = None →
  no_file_at (disk w) p = true →
  mkdir_each target (p :: rest) w
  = mkdir_each target rest (with_disk (ensure_dir p (disk w)) w).
Proof.
  intros Hp. destruct w as [ps sp fs sf d fault ts pg].
  unfold no_file_at, ensure_dir, with_disk. cbn [mkdir_each disk]. rewrite Hp.
  cbn [projects seq_projects project_files seq_project_files disk db_fault now page].
  by destruct (d !! p) as [[] |].
Qed.

Lemma os_makedirs_project (w : world) (pid : Z) :
  in_int64 pid = true →
  no_file_at (disk w) "files" = true →
  no_file_at (disk w) (project_dir pid) = true →
  os_makedirs ("files/project_" +:+ pretty pid +:+ "/") w
  = (Returned tt,
     with_disk (ensure_dir (project_dir pid) (ensure_dir "files" (disk w))) w).
Proof.
  intros Hpid Hfiles Hdir. unfold os_makedirs. rewrite dir_prefixes_project.
  rewrite mkdir_each_cons by done.
  rewrite mkdir_each_cons.
  - by destruct w.
  - by apply path_problem_project_dir.
  - destruct w as [ps sp fs sf d fault ts pg]. cbn [disk with_disk] in *.
    unfold no_file_at in *.
    rewrite ensure_dir_lookup_ne; [done |].
    intros E. by apply (project_dir_not_files pid).
Qed.

Lemma open_wb_project (w : world) (pid : Z) (n : string) (b : list byte) :
  in_int64 pid = true →
  storable_name n = true →
  disk w !! project_dir pid = Some Dir →
  no_dir_at (disk w) (project_path pid n) = true →
  open_wb (project_path pid n) b w
  = (Returned tt, with_disk (<[project_path pid n := File b]> (disk w)) w).
Proof.
  intros Hpid Hn Hdir Hfree.
  pose proof (storable_name_spec _ Hn) as (Hv & _ & _).
  pose proof (valid_file_name_spec _ Hv) as (Hslash & _ & Hcomp).
  unfold open_wb. rewrite path_problem_project_path by done.
  rewrite project_path_dir, basename_append, dirname_append, Hcomp by done.
  rewrite <- project_path_dir. cbn [negb].
  assert (project_dir pid ≠ "") as Hne by (unfold project_dir; discriminate).
  destruct (project_dir pid) as [| c rest] eqn:E; [done |].
  rewrite Hdir. unfold no_dir_at in Hfree.
  by destruct (disk w !! project_path pid n) as [[] |].
Qed.

Lemma insert_into_project_files_ok (w : world) (pid : Z) (n path : string) :
  in_int64 pid = true →
  db_fault w = None →
  insert_into_project_files pid n path w
  = (Returned tt,
     with_project_files
       (project_files w
          ++ [FileRow (next_rowid (seq_project_files w) (f_id <$> project_files w))
                pid n path (now w)])
       (next_rowid (seq_project_files w) (f_id <$> project_files w)) w).
Proof. intros Hi H. run_py H. reflexivity. Qed.

(** After the two steps on the disk, what is left of [upload_file] is the
    INSERT and the message. *)
Lemma upload_file_written (w : world) (pid : Z) (f : UploadedFile) :
  in_int64 pid = true →
  storable_name (name f) = true →
  disk_accepts (disk w) pid (name f) = true →
  upload_file pid (Some f) w
  = (insert_into_project_files pid (name f) (project_path pid (name f));;
     st_success "File uploaded successfully!")
      (with_disk (disk_with_upload pid f (disk w)) w).
Proof.
  intros Hpid Hname Hdisk. unfold disk_accepts in Hdisk.
  apply andb_prop in Hdisk as [[Hfiles Hdir]%andb_prop Hfree].
  pose proof (storable_name_spec _ Hname) as (Hv & _ & _).
  pose proof (valid_file_name_spec _ Hv) as (Hslash & Hstart & _).
  unfold upload_file. rewrite join_project_dir by done.
  unfold mbind at 1. unfold py_bind at 1.
  rewrite os_makedirs_project by done.
  unfold mbind at 1. unfold py_bind at 1.
  rewrite open_wb_project; [| done | done | |].
  - by destruct w.
  - destruct w as [ps sp fs sf d fault ts pg]. cbn [disk with_disk] in *.
    apply ensure_dir_lookup. unfold no_file_at in *.
    rewrite ensure_dir_lookup_ne; [done |].
    intros E. by apply (project_dir_not_files pid).
  - destruct w as [ps sp fs sf d fault ts pg]. cbn [disk with_disk] in *.
    unfold no_dir_at in *.
    rewrite !ensure_dir_lookup_ne; [done | |].
    + intros E. by apply (project_path_not_files pid (name f)).
    + intros E. by apply (project_path_not_dir pid (name f)).
Qed.

Lemma upload_file_ok (w : world) (pid : Z) (f : UploadedFile) :
  in_int64 pid = true →
  storable_name (name f) = true →
  db_fault w = None →
  disk_accepts (disk w) pid (name f) = true →
  upload_file pid (Some f) w = (Returned tt, after_upload pid f w).
Proof.
  intros Hpid Hname Hdb Hdisk. rewrite upload_file_written by done.
  unfold mbind, py_bind.
  rewrite insert_into_project_files_ok by (by destruct w).
  by destruct w.
Qed.

(** ** Listing the files *)

Lemma tab5_query_ok (w : world) (pid : Z) :
  db_fault w = None →
  tab5_query pid w
  = (Returned (listed <$> filter (λ r, project_id r = pid) (project_files w)), w).
Proof. intros H. run_py H. reflexivity. Qed.

Lemma tab5_file_row_ok (w : world) (i : Z) (n p : string) (b : list byte) :
  disk w !! p = Some (File b) →
  tab5_file_row (i, n, p) w
  = (Returned tt,
     with_page (page w ++ [Text n; DownloadButton "Download" b n
                             "application/octet-stream" ("download-" +:+ pretty i)]) w).
Proof.
  intros Hp. destruct w as [ps sp fs sf d fault ts pg]. cbn in Hp.
  unfold tab5_file_row, open_rb. unfold_py. cbn. rewrite Hp. cbn.
  by rewrite <- app_assoc.
Qed.

Lemma tab5_file_row_page (row : Z * string * string) (w : world) :
  ∃ (o : outcome unit) (pg : list element), tab5_file_row row w = (o, with_page pg w).
Proof.
  destruct row as [[i n] p]. destruct w as [pr sp fs sf d fault ts pg].
  unfold tab5_file_row, open_rb. unfold_py. cbn.
  destruct (d !! p) as [[b |] |]; eexists _, _; reflexivity.
Qed.

Lemma for_each_cons {A} (x : A) (rest : list A) (body : A → py unit) (w : world) :
  for_each (x :: rest) body w
  = match body x w with
    | (Returned _, w') => for_each rest body w'
    | (Raised e, w') => (Raised e, w')
    end.
Proof. reflexivity. Qed.

Lemma for_each_file_rows_page (rows : list (Z * string * string)) (w : world) :
  ∃ (o : outcome unit) (pg : list element),
    for_each rows tab5_file_row w = (o, with_page pg w).
Proof.
  revert w. induction rows as [| row rows IH]; intros w.
  - exists (Returned tt), (page w). by destruct w.
  - rewrite for_each_cons.
    destruct (tab5_file_row_page row w) as ([[] | e] & pg & ->).
    + destruct (IH (with_page pg w)) as (o & pg' & ->).
      exists o, pg'. by destruct w.
    + by exists (Raised e), pg.
Qed.

Lemma tab5_files_page (pid : Z) (w : world) :
  ∃ (o : outcome unit) (pg : list element), tab5_files pid w = (o, with_page pg w).
Proof.
  destruct (db_fault w) as [msg |] eqn:Hdb.
  - destruct w as [pr sp fs sf d fault ts pg]. cbn in Hdb. subst fault.
    eexists _, pg. unfold_py. cbn. reflexivity.
  - unfold tab5_files. unfold mbind at 1. unfold py_bind at 1.
    rewrite tab5_query_ok by done.
    destruct (listed <$> filter (λ r, project_id r = pid) (project_files w))
      as [| row rows] eqn:E.
    + eexists _, _. reflexivity.
    + apply for_each_file_rows_page.
Qed.

Lemma for_each_drawn (rows : list (Z * string * string)) (w : world) :
  Forall (λ row, is_file (disk w) row.2 = true) rows →
  for_each rows tab5_file_row w
  = (Returned tt, with_page (page w ++ (rows ≫= drawn (disk w))) w).
Proof.
  revert w. induction rows as [| [[i n] p] rows IH]; intros w Hall.
  - cbn. rewrite app_nil_r. by destruct w.
  - inversion Hall as [| ? ? Hrow Hrest]; subst. cbn in Hrow.
    unfold is_file in Hrow.
    destruct (disk w !! p) as [[b |] |] eqn:Hp; [| done | done].
    rewrite for_each_cons, (tab5_file_row_ok w i n p b Hp).
    rewrite IH by (by destruct w).
    destruct w as [pr sp fs sf d fault ts pg]. cbn in *.
    unfold drawn at 2, content_at. cbn. rewrite Hp.
    by rewrite <- app_assoc.
Qed.

Lemma tab5_files_drawn (w : world) (pid : Z) :
  db_fault w = None →
  Forall (λ r, project_id r = pid → is_file (disk w) (file_path r) = true)
         (project_files w) →
  tab5_files pid w
  = (Returned tt,
     with_page
       (page w ++
        match listed <$> filter (λ r, project_id r = pid) (project_files w) with
        | [] => [Info "No files found for this project."]
        | rows => rows ≫= drawn (disk w)
        end) w).
Proof.
  intros Hdb Hall. unfold tab5_files. unfold mbind, py_bind.
  rewrite tab5_query_ok by done.
  destruct (listed <$> filter (λ r, project_id r = pid) (project_files w))
    as [| row rows] eqn:E; [done |].
  apply for_each_drawn. rewrite <- E.
  rewrite Forall_fmap. apply Forall_forall.
  intros r [Hpid Hr]%list_elem_of_filter. cbn.
  rewrite Forall_forall in Hall. by apply Hall.
Qed.

Lemma disk_with_upload_other (pid : Z) (f : UploadedFile) (d : gmap string node)
    (q : string) (x : node) :
  q ≠ project_path pid (name f) → d !! q = Some x →
  disk_with_upload pid f d !! q = Some x.
Proof.
  intros Hq Hx. unfold disk_with_upload. rewrite lookup_insert_ne by done.
  assert (∀ p d', d' !! q = Some x → ensure_dir p d' !! q = Some x) as Hkeep.
  { intros p d' H. unfold ensure_dir.
    destruct (d' !! p) eqn:E; [done |].
    rewrite lookup_insert_ne; [done |]. intros ->. congruence. }
  by do 2 apply Hkeep.
Qed.

Lemma disk_with_upload_accepts (pid : Z) (f g : UploadedFile) (d : gmap string node) :
  valid_file_name (name f) = true → name g = name f →
  disk_accepts d pid (name f) = true →
  disk_accepts (disk_with_upload pid f d) pid (name g) = true.
Proof.
  intros Hname -> Hacc. pose proof (valid_file_name_spec _ Hname) as (Hslash & _ & _).
  unfold disk_accepts in *.
  apply andb_prop in Hacc as [[Hfiles Hdir]%andb_prop Hfree].
  assert (ensure_dir "files" d !! "files" = Some Dir) as H1
    by by apply ensure_dir_lookup.
  assert (ensure_dir (project_dir pid) (ensure_dir "files" d) !! project_dir pid
          = Some Dir) as H2.
  { apply ensure_dir_lookup. unfold no_file_at in *.
    rewrite ensure_dir_lookup_ne; [done |].
    intros E. by apply (project_dir_not_files pid). }
  unfold disk_with_upload, no_file_at, no_dir_at.
  rewrite lookup_insert_eq.
  rewrite !lookup_insert_ne.
  - rewrite H2. rewrite ensure_dir_lookup_ne, H1; [done |].
    apply project_dir_not_files.
  - intros E. by apply (project_path_not_dir pid (name f)).
  - intros E. by apply (project_path_not_files pid (name f)).
Qed.

Lemma is_file_after_upload (pid : Z) (f : UploadedFile) (d : gmap string node) (q : string) :
  is_file d q = true → is_file (disk_with_upload pid f d) q = true.
Proof.
  unfold is_file at 1. destruct (d !! q) as [[b |] |] eqn:E; [| done | done].
  intros _. unfold is_file.
  destruct (decide (q = project_path pid (name f))) as [-> | Hne].
  - unfold disk_with_upload. by rewrite lookup_insert_eq.
  - by rewrite (disk_with_upload_other pid f d q (File b)).
Qed.

Lemma drawn_snoc (d : gmap string node) (l : list (Z * string * string))
    (x : Z * string * string) :
  match l ++ [x] with
  | [] => [Info "No files found for this project."]
  | rows => rows ≫= drawn d
  end = (l ≫= drawn d) ++ drawn d x.
Proof.
  assert ((l ++ [x]) ≫= drawn d = (l ≫= drawn d) ++ drawn d x) as <-.
  { rewrite bind_app. reflexivity. }
  by destruct l.
Qed.

Lemma after_upload_fields (pid : Z) (f : UploadedFile) (w : world) :
  page (after_upload pid f w) = page w ++ [Success "File uploaded successfully!"]
  ∧ project_files (after_upload pid f w)
    = project_files w
      ++ [FileRow (next_rowid (seq_project_files w) (f_id <$> project_files w))
            pid (name f) (project_path pid (name f)) (now w)]
  ∧ disk (after_upload pid f w) = disk_with_upload pid f (disk w)
  ∧ db_fault (after_upload pid f w) = db_fault w.
Proof. by destruct w. Qed.

(** C2, as amended.  For a project id that SQLite can hold and a plain file
    name (one path component of at most 255 bytes, without NUL, not "." or
    ".."), when the database answers, nothing on the disk is in the way and
    the earlier files of the project are in place: [upload_file] returns
    normally; afterwards the disk holds exactly the uploaded bytes at
    files/project_<pid>/<name>, the file listing of the project is the
    former listing followed by a row with that name and that path, and the
    listing as the page draws it ends with that name and a download button
    (key download-<id of the row>) that carries exactly the uploaded bytes
    under the uploaded name. *)
Theorem upload_then_download (w : world) (pid : Z) (n : string) (b : list byte) :
  in_int64 pid = true →
  storable_name n = true →
  db_fault w = None →
  disk_accepts (disk w) pid n = true →
  Forall (λ x, project_id x = pid → is_file (disk w) (file_path x) = true)
         (project_files w) →
  ∃ (w' : world) (i : Z) (pg : list element),
    upload_file pid (Some (Upload n b)) w = (Returned tt, w')
    ∧ disk w' !! ("files/project_" +:+ pretty pid +:+ "/" +:+ n) = Some (File b)
    ∧ tab5_query pid w'
      = (Returned ((listed <$> filter (λ r, project_id r = pid) (project_files w))
                   ++ [(i, n, "files/project_" +:+ pretty pid +:+ "/" +:+ n)]), w')
    ∧ tab5_files pid w'
      = (Returned tt,
         with_page (page w' ++ pg
                    ++ [Text n; DownloadButton "Download" b n
                                  "application/octet-stream"
                                  ("download-" +:+ pretty i)]) w').
Proof.
  intros Hpid Hname Hdb Hdisk Hall.
  set (f := Upload n b).
  destruct (after_upload_fields pid f w) as (Hpage & Hfiles & Hdsk & Hfault).
  exists (after_upload pid f w),
         (next_rowid (seq_project_files w) (f_id <$> project_files w)),
         ((listed <$> filter (λ x, project_id x = pid) (project_files w))
            ≫= drawn (disk (after_upload pid f w))).
  assert (disk (after_upload pid f w) !! project_path pid n = Some (File b)) as Hstored.
  { rewrite Hdsk. unfold disk_with_upload. apply lookup_insert_eq. }
  assert ((listed <$> filter (λ r, project_id r = pid) (project_files (after_upload pid f w)))
          = (listed <$> filter (λ r, project_id r = pid) (project_files w))
            ++ [(next_rowid (seq_project_files w) (f_id <$> project_files w), n,
                 project_path pid n)]) as Hlist.
  { rewrite Hfiles, filter_app, filter_cons_True, fmap_app by done. reflexivity. }
  split; [by apply upload_file_ok |].
  split; [exact Hstored |].
  split; [rewrite tab5_query_ok by congruence; by rewrite Hlist |].
  rewrite tab5_files_drawn.
  - do 2 f_equal. rewrite Hlist, drawn_snoc. f_equal.
    unfold drawn, content_at. cbn [fst snd]. by rewrite Hstored.
  - congruence.
  - rewrite Hfiles, Hdsk. apply Forall_app. split.
    + eapply Forall_impl; [exact Hall |]. cbn beta. intros x Hx Hp.
      by apply is_file_after_upload, Hx.
    + constructor; [| constructor]. intros _. cbn [file_path].
      unfold is_file, disk_with_upload. by rewrite lookup_insert_eq.
Qed.

Lemma upload_then_download_witness :
  ∃ (w' : world) (i : Z) (pg : list element),
    upload_file 1 (Some (Upload "spec.pdf" (getbuffer spec_pdf_again))) example_busy
    = (Returned tt, w')
    ∧ disk w' !! ("files/project_" +:+ pretty 1 +:+ "/" +:+ "spec.pdf")
      = Some (File (getbuffer spec_pdf_again))
    ∧ tab5_query 1 w'
      = (Returned ((listed <$> filter (λ r, project_id r = 1) (project_files example_busy))
                   ++ [(i, "spec.pdf", "files/project_" +:+ pretty 1 +:+ "/" +:+ "spec.pdf")]),
         w')
    ∧ tab5_files 1 w'
      = (Returned tt,
         with_page (page w' ++ pg
                    ++ [Text "spec.pdf";
                        DownloadButton "Download" (getbuffer spec_pdf_again) "spec.pdf"
                          "application/octet-stream"
                          ("download-" +:+ pretty i)]) w').
Proof.
  apply (upload_then_download example_busy 1 "spec.pdf" (getbuffer spec_pdf_again));
    try reflexivity.
  repeat constructor.
Defined.

(** C2 as it was stated fails for a file name that is an absolute path:
    [upload_file] returns normally, but nothing is stored in the directory
    of the project; the bytes are at /tmp/motd.pdf, and that is the path
    the row records. *)
Lemma upload_absolute_name_leaves_project_dir :
  fst (upload_file 1 (Some root_upload) example_tmp) = Returned tt
  ∧ disk (run (upload_file 1 (Some root_upload)) example_tmp)
      !! ("files/project_" +:+ pretty 1 +:+ "/" +:+ name root_upload) = None
  ∧ disk (run (upload_file 1 (Some root_upload)) example_tmp)
      !! "files/project_1/tmp/motd.pdf" = None
  ∧ disk (run (upload_file 1 (Some root_upload)) example_tmp) !! "/tmp/motd.pdf"
    = Some (File (getbuffer root_upload))
  ∧ fst (tab5_query 1 (run (upload_file 1 (Some root_upload)) example_tmp))
    = Returned [(1, "/tmp/motd.pdf", "/tmp/motd.pdf")].
Proof. vm_compute. repeat split; reflexivity. Qed.

(** The scenario of the specification, run: one file listed for project 1,
    and its download is the upload. *)
Example spec_pdf_listed :
  let w := run (upload_file 1 (Some spec_pdf)) example_start in
  fst (tab5_query 1 w) = Returned [(1, "spec.pdf", "files/project_1/spec.pdf")]
  ∧ page (run (tab5_files 1) w)
    = page w ++ [Text "spec.pdf";
                 DownloadButton "Download" (getbuffer spec_pdf) "spec.pdf"
                   "application/octet-stream" "download-1"].
Proof. split; reflexivity. Qed.

(** ** Row ids *)

Lemma foldr_max_bounded (seq : Z) (ids : list Z) :
  forallb (λ i, i <=? seq) ids = true → foldr Z.max seq ids = seq.
Proof.
  induction ids as [| i ids IH]; cbn; [done |].
  intros [Hi Hrest]%andb_prop. rewrite IH by done. lia.
Qed.

Lemma next_rowid_ok (seq : Z) (ids : list Z) :
  table_ok seq ids = true → next_rowid seq ids = seq + 1.
Proof.
  unfold table_ok, next_rowid. intros [_ Hb]%andb_prop.
  by rewrite foldr_max_bounded.
Qed.

Lemma ascending_from_weaken (lo lo' : Z) (ids : list Z) :
  lo' ≤ lo → ascending_from lo ids = true → ascending_from lo' ids = true.
Proof.
  destruct ids as [| i ids]; cbn; [done |].
  intros Hlo [Hi Hrest]%andb_prop. apply andb_true_intro. split; [lia | done].
Qed.

Lemma ascending_from_bounds (lo : Z) (ids : list Z) :
  ascending_from lo ids = true → Forall (λ i, lo < i) ids.
Proof.
  revert lo. induction ids as [| i ids IH]; intros lo; cbn; [done |].
  intros [Hi Hrest]%andb_prop. constructor; [lia |].
  eapply Forall_impl; [by apply IH |]. cbn. lia.
Qed.

Lemma ascending_from_snoc (lo x : Z) (ids : list Z) :
  ascending_from lo ids = true → lo < x → Forall (λ i, i < x) ids →
  ascending_from lo (ids ++ [x]) = true.
Proof.
  revert lo. induction ids as [| i ids IH]; intros lo; cbn.
  - intros _ Hx _. apply andb_true_intro. split; [lia | done].
  - intros [Hi Hrest]%andb_prop Hx Hall. inversion Hall; subst.
    apply andb_true_intro. split; [done |]. apply IH; [done | lia | done].
Qed.

Lemma ascending_from_sublist (lo : Z) (ids ids' : list Z) :
  ids' `sublist_of` ids → ascending_from lo ids = true → ascending_from lo ids' = true.
Proof.
  intros Hsub. revert lo. induction Hsub as [| i l1 l2 _ IH | i l1 l2 _ IH];
    intros lo; cbn; [done | |].
  - intros [Hi Hrest]%andb_prop. rewrite Hi. by apply IH.
  - intros [Hi Hrest]%andb_prop. apply IH.
    eapply ascending_from_weaken; [| done]. lia.
Qed.

Lemma forallb_le_weaken (seq seq' : Z) (ids : list Z) :
  seq ≤ seq' → forallb (λ i, i <=? seq) ids = true →
  forallb (λ i, i <=? seq') ids = true.
Proof.
  intros Hle. induction ids as [| i ids IH]; cbn; [done |].
  intros [Hi Hrest]%andb_prop. apply andb_true_intro. split; [lia | by apply IH].
Qed.

Lemma forallb_sublist (f : Z → bool) (ids ids' : list Z) :
  ids' `sublist_of` ids → forallb f ids = true → forallb f ids' = true.
Proof.
  induction 1 as [| i l1 l2 _ IH | i l1 l2 _ IH]; cbn; [done | |].
  - intros [Hi Hrest]%andb_prop. rewrite Hi. by apply IH.
  - intros [Hi Hrest]%andb_prop. by apply IH.
Qed.

Lemma table_ok_bounds (seq : Z) (ids : list Z) :
  table_ok seq ids = true → Forall (λ i, 0 < i ≤ seq) ids.
Proof.
  unfold table_ok. intros [[_ Hasc]%andb_prop Hb]%andb_prop.
  apply ascending_from_bounds in Hasc.
  rewrite forallb_forall in Hb. rewrite Forall_forall in *.
  intros i Hi. split; [by apply Hasc |].
  apply Z.leb_le, Hb. by apply list_elem_of_In.
Qed.

Lemma table_ok_insert (seq : Z) (ids : list Z) :
  table_ok seq ids = true → table_ok (seq + 1) (ids ++ [seq + 1]) = true.
Proof.
  intros Hok. pose proof (table_ok_bounds _ _ Hok) as Hall.
  unfold table_ok in *. apply andb_prop in Hok as [[Hseq Hasc]%andb_prop Hb].
  apply andb_true_intro. split; [apply andb_true_intro; split; [lia |] |].
  - apply ascending_from_snoc; [done | lia |].
    eapply Forall_impl; [exact Hall |]. cbn. lia.
  - rewrite forallb_app. apply andb_true_intro. split.
    + eapply forallb_le_weaken; [| done]. lia.
    + cbn. rewrite andb_true_r. lia.
Qed.

Lemma table_ok_sublist (seq : Z) (ids ids' : list Z) :
  ids' `sublist_of` ids → table_ok seq ids = true → table_ok seq ids' = true.
Proof.
  unfold table_ok. intros Hsub [[Hseq Hasc]%andb_prop Hb]%andb_prop.
  apply andb_true_intro. split; [apply andb_true_intro; split; [done |] |].
  - by eapply ascending_from_sublist.
  - by eapply forallb_sublist.
Qed.

Lemma db_ok_tables (w : world) :
  db_ok w = true →
  table_ok (seq_projects w) (p_id <$> projects w) = true
  ∧ table_ok (seq_project_files w) (f_id <$> project_files w) = true.
Proof. unfold db_ok. by intros [??]%andb_prop. Qed.

(** C8.  In a world whose tables are as AUTOINCREMENT leaves them and whose
    database answers: [get_all_projects] returns every row of [projects],
    unfiltered, in ascending order of id, and a project added next is
    listed after all of them with a larger id; the file listing of a
    project is made of exactly the rows of [project_files] with that
    project_id, in the order of the table, ascending in id, and a row
    inserted next for the project (whose id SQLite can hold) is listed
    after them with a larger id. *)
Theorem listings_in_insertion_order (w : world) :
  db_fault w = None → db_ok w = true →
  get_all_projects w = (Returned (projects w), w)
  ∧ ascending_from 0 (p_id <$> projects w) = true
  ∧ (∀ (n c p s : string) (d1 d2 : date), ∃ r : project_row,
       fst (get_all_projects (run (add_project n c p s d1 d2) w))
       = Returned (projects w ++ [r])
       ∧ Forall (λ r0, p_id r0 < p_id r) (projects w))
  ∧ ∀ pid : Z,
      tab5_query pid w
      = (Returned (listed <$> filter (λ r, project_id r = pid) (project_files w)), w)
      ∧ (∀ r : file_row,
           r ∈ filter (λ r, project_id r = pid) (project_files w)
           ↔ r ∈ project_files w ∧ project_id r = pid)
      ∧ filter (λ r, project_id r = pid) (project_files w) `sublist_of` project_files w
      ∧ ascending_from 0 (f_id <$> filter (λ r, project_id r = pid) (project_files w)) = true
      ∧ (∀ n path : string, in_int64 pid = true → ∃ i : Z,
           fst (tab5_query pid (run (insert_into_project_files pid n path) w))
           = Returned ((listed <$> filter (λ r, project_id r = pid) (project_files w))
                       ++ [(i, n, path)])
           ∧ Forall (λ r0, f_id r0 < i) (project_files w)).
Proof.
  intros Hdb [Hp Hf]%db_ok_tables.
  split; [by apply get_all_projects_ok |].
  split; [unfold table_ok in Hp; by apply andb_prop in Hp as [[_ ?]%andb_prop _] |].
  split.
  { intros n c p s d1 d2. eexists. unfold run.
    rewrite add_project_ok by done. cbn [snd].
    rewrite get_all_projects_ok by done. cbn. split; [reflexivity |].
    rewrite next_rowid_ok by done.
    apply table_ok_bounds in Hp. rewrite Forall_fmap in Hp.
    eapply Forall_impl; [exact Hp |]. cbn. lia. }
  intros pid.
  split; [by apply tab5_query_ok |].
  split; [intros r; by rewrite list_elem_of_filter; tauto |].
  split; [apply sublist_filter |].
  split.
  { unfold table_ok in Hf. apply andb_prop in Hf as [[_ Hasc]%andb_prop _].
    eapply ascending_from_sublist; [| exact Hasc].
    apply fmap_sublist, sublist_filter. }
  intros n path Hpid. eexists. unfold run.
  rewrite insert_into_project_files_ok by done. cbn [snd].
  rewrite tab5_query_ok by done. cbn.
  rewrite filter_app, fmap_app, filter_cons_True by done. split; [reflexivity |].
  rewrite next_rowid_ok by done.
  apply table_ok_bounds in Hf. rewrite Forall_fmap in Hf.
  eapply Forall_impl; [exact Hf |]. cbn. lia.
Qed.

Lemma listings_in_insertion_order_witness :
  get_all_projects example_busy = (Returned (projects example_busy), example_busy)
  ∧ ascending_from 0 (p_id <$> projects example_busy) = true.
Proof.
  destruct (listings_in_insertion_order example_busy eq_refl eq_refl)
    as (Hall & Hasc & _).
  split; [exact Hall | exact Hasc].
Defined.

(** ** Where the code leaves the specification *)

(** C3.  [delete_file] tests and removes [row[2]], which is the file_name
    column, not file_path.  After one upload the row and the file at its
    file_path both exist, yet [delete_file] answers "File does not exist on
    disk." and removes neither.  When the working directory has a file of
    the uploaded name, that file is removed instead, the row is deleted and
    success is reported, while the uploaded file stays where it was. *)
Theorem delete_file_tests_file_name :
  project_files example_busy
  = [FileRow 1 1 "spec.pdf" "files/project_1/spec.pdf" "2024-01-01 09:00:00"]
  ∧ disk example_busy !! "files/project_1/spec.pdf" = Some (File (getbuffer spec_pdf))
  ∧ delete_file 1 example_busy
    = (Returned tt,
       with_page (page example_busy ++ [Error "File does not exist on disk."]) example_busy)
  ∧ delete_file 1 example_logo
    = (Returned tt,
       with_page (page example_logo ++ [Success "File deleted successfully!"])
         (with_project_files [] 1
            (with_disk (delete "cistech.png" (disk example_logo)) example_logo)))
  ∧ disk (run (delete_file 1) example_logo) !! "files/project_1/cistech.png"
    = Some (File (getbuffer logo_upload))
  ∧ disk (run (delete_file 1) example_logo) !! "cistech.png" = None.
Proof. vm_compute. repeat split; reflexivity. Qed.

(** C7.  [upload_file] has no [try], and neither has the loop that reads
    the files for the download buttons.  A file missing behind its row
    makes the listing raise FileNotFoundError; a write that fails makes
    [upload_file] raise IsADirectoryError; a failing INSERT makes it raise
    sqlite3.Error after the file has been written.  In none of the three
    is an error element put on the page. *)
Theorem upload_and_download_do_not_catch :
  tab5_files 1 example_missing_blob
  = (Raised (FileNotFoundError "files/project_1/spec.pdf"),
     with_page (page example_missing_blob ++ [Text "spec.pdf"]) example_missing_blob)
  ∧ upload_file 1 (Some spec_pdf) example_blocked
    = (Raised (IsADirectoryError "files/project_1/spec.pdf"), example_blocked)
  ∧ upload_file 1 (Some spec_pdf) example_locked
    = (Raised (sqlite3_Error "database is locked"),
       with_disk (disk example_busy) example_locked)
  ∧ project_files (run (upload_file 1 (Some spec_pdf)) example_locked) = []
  ∧ page (run (upload_file 1 (Some spec_pdf)) example_locked) = page example_locked.
Proof. vm_compute. repeat split; reflexivity. Qed.

(** C10.  Two uploads of one name for one project leave two rows with one
    file_path and one file, which holds the bytes of the second upload.
    [delete_file] on the first row then answers "File does not exist on
    disk.": the shared file is still there, and so are both rows. *)
Theorem delete_file_keeps_shared_blob :
  project_files example_twice
  = [FileRow 1 1 "spec.pdf" "files/project_1/spec.pdf" "2024-01-01 09:00:00";
     FileRow 2 1 "spec.pdf" "files/project_1/spec.pdf" "2024-01-01 09:00:00"]
  ∧ disk example_twice !! "files/project_1/spec.pdf"
    = Some (File (getbuffer spec_pdf_again))
  ∧ delete_file 1 example_twice
    = (Returned tt,
       with_page (page example_twice ++ [Error "File does not exist on disk."])
         example_twice).
Proof. vm_compute. repeat split; reflexivity. Qed.

(** * Further properties of the code *)

(** ** Dates as text *)

(** X1.  For calendar dates of the years 1000 to 9999, the text [add_project]
    and [update_project] store is the date as YYYY-MM-DD, ten characters
    that the edit form's [strptime] reads back as the same date, so two
    different dates are never stored as the same text.  A calendar date
    before the year 1000 is stored with a shorter year, and [strptime] does
    not take that text. *)
Theorem stored_date_reads_back (d1 d2 : date) :
  valid_date d1 = true → valid_date d2 = true →
  (1000 ≤ year d1 → 1000 ≤ year d2 →
   strftime_Ymd d1 = iso_YMD d1
   ∧ strptime_Ymd (strftime_Ymd d1) = Some d1
   ∧ String.length (strftime_Ymd d1) = 10%nat
   ∧ (strftime_Ymd d1 = strftime_Ymd d2 → d1 = d2))
  ∧ (year d1 < 1000 → strptime_Ymd (strftime_Ymd d1) = None).
Proof.
  intros H1 H2. split; [| by apply strptime_short_year].
  intros Hy1 Hy2.
  split; [by apply strftime_iso |].
  split; [by apply strptime_strftime |].
  split; [by rewrite strftime_iso |].
  intros E. apply (f_equal strptime_Ymd) in E.
  rewrite !strptime_strftime in E by done. by injection E.
Qed.

Lemma stored_date_reads_back_witness :
  strptime_Ymd (strftime_Ymd (Date 2024 2 29)) = Some (Date 2024 2 29)
  ∧ strftime_Ymd (Date 2024 2 29) = "2024-02-29"
  ∧ strptime_Ymd (strftime_Ymd (Date 987 12 1)) = None
  ∧ strftime_Ymd (Date 987 12 1) = "987-12-01".
Proof.
  destruct (stored_date_reads_back (Date 2024 2 29) (Date 1999 12 31) eq_refl eq_refl)
    as [Hlong _].
  destruct Hlong as (_ & Hback & _); [simpl; lia | simpl; lia |].
  destruct (stored_date_reads_back (Date 987 12 1) (Date 987 12 1) eq_refl eq_refl)
    as [_ Hshort].
  split; [exact Hback |]. split; [reflexivity |].
  split; [apply Hshort; simpl; lia | reflexivity].
Defined.

(** ** The functions that catch *)

Lemma delete_file_fault (w : world) (i : Z) (msg : string) :
  in_int64 i = true →
  db_fault w = Some msg →
  delete_file i w
  = (Returned tt, with_page (page w ++ [Error ("Error deleting the file: " +:+ msg)]) w).
Proof. intros Hi H. run_fault H. reflexivity. Qed.

Lemma delete_file_overflow (w : world) (i : Z) :
  in_int64 i = false →
  delete_file i w
  = (Returned tt,
     with_page (page w ++ [Error ("Error deleting the file: " +:+ str OverflowError)]) w).
Proof.
  intros Hi. unfold_py. rewrite execute_overflow; [reflexivity |].
  cbn [forallb bindable]. by rewrite Hi.
Qed.

(** X2.  When the database fails, each of the five functions that wrap their
    body in [try], called with an id that SQLite can hold, returns normally,
    puts one error element on the page that quotes the failure, and leaves
    the tables and the disk as they were; [get_all_projects] then returns no
    rows. *)
Theorem database_failure_is_reported
    (w : world) (msg : string) (i : Z) (n c p s : string) (d1 d2 : date) :
  in_int64 i = true →
  db_fault w = Some msg →
  get_all_projects w
  = (Returned [],
     with_page (page w ++ [Error ("Error fetching projects: "
                                  +:+ "Execution failed on sql 'SELECT * FROM projects': "
                                  +:+ msg)]) w)
  ∧ add_project n c p s d1 d2 w
    = (Returned tt, with_page (page w ++ [Error ("Error adding project: " +:+ msg)]) w)
  ∧ update_project i n c p s d1 d2 w
    = (Returned tt, with_page (page w ++ [Error ("Error updating project: " +:+ msg)]) w)
  ∧ delete_project i w
    = (Returned tt, with_page (page w ++ [Error ("Error deleting project: " +:+ msg)]) w)
  ∧ delete_file i w
    = (Returned tt, with_page (page w ++ [Error ("Error deleting the file: " +:+ msg)]) w).
Proof.
  intros Hi H. repeat split; run_fault H; reflexivity.
Qed.

Lemma database_failure_is_reported_witness :
  get_all_projects example_locked
  = (Returned [],
     with_page (page example_locked
                ++ [Error ("Error fetching projects: "
                           +:+ "Execution failed on sql 'SELECT * FROM projects': "
                           +:+ "database is locked")]) example_locked)
  ∧ add_project "A" "Project" "Bob" "On Hold" (Date 2024 1 1) (Date 2024 1 2) example_locked
    = (Returned tt,
       with_page (page example_locked
                  ++ [Error ("Error adding project: " +:+ "database is locked")])
         example_locked).
Proof.
  destruct (database_failure_is_reported example_locked "database is locked" 1
              "A" "Project" "Bob" "On Hold" (Date 2024 1 1) (Date 2024 1 2)
              eq_refl eq_refl)
    as (Hlist & Hadd & _).
  split; [exact Hlist | exact Hadd].
Defined.

(** ** What [delete_file] does *)

Lemma delete_file_by_name (w : world) (i : Z) :
  in_int64 i = true →
  db_fault w = None →
  match head (filter (λ r, f_id r = i) (project_files w)) with
  | None =>
      delete_file i w
      = (Returned tt,
         with_page (page w ++ [Error "File does not exist in the database."]) w)
  | Some r =>
      match disk w !! file_name r with
      | None =>
          delete_file i w
          = (Returned tt, with_page (page w ++ [Error "File does not exist on disk."]) w)
      | Some Dir =>
          delete_file i w
          = (Returned tt,
             with_page (page w ++ [Error ("Error deleting the file: "
                                          +:+ str (IsADirectoryError (file_name r)))]) w)
      | Some (File _) =>
          delete_file i w
          = (Returned tt,
             with_page (page w ++ [Success "File deleted successfully!"])
               (with_project_files
                  (filter (λ r, f_id r ≠ i) (project_files w)) (seq_project_files w)
                  (with_disk (delete (file_name r) (disk w)) w)))
      end
  end.
Proof.
  intros Hi Hdb. destruct w as [ps sp fs sf d fault ts pg]. cbn in Hdb. subst fault.
  unfold delete_file, path_at, os_path_exists, os_remove. unfold_py.
  unfold execute. cbn [forallb bindable]. rewrite Hi. cbn.
  destruct (head (filter (λ r, f_id r = i) fs)) as [r |]; cbn; [| done].
  destruct (d !! file_name r) as [[] |] eqn:E; cbn; rewrite ?E; done.
Qed.



(** ** What [upload_file] does *)



(** X5.  For a project id that SQLite can hold and a plain file name that the
    file system can hold, a successful [upload_file] changes nothing but
    what it is for: the projects and the rows of earlier uploads are kept,
    and whatever was on the disk at another place than the uploaded file's
    is still there with the same content. *)
Theorem upload_file_frame (w : world) (pid : Z) (f : UploadedFile) :
  in_int64 pid = true →
  storable_name (name f) = true →
  db_fault w = None →
  disk_accepts (disk w) pid (name f) = true →
  ∃ (w' : world) (r : file_row),
    upload_file pid (Some f) w = (Returned tt, w')
    ∧ projects w' = projects w
    ∧ seq_projects w' = seq_projects w
    ∧ project_files w' = project_files w ++ [r]
    ∧ upload_date r = now w
    ∧ (∀ (q : string) (x : node),
         normal_path q = true → q ≠ project_path pid (name f) →
         disk w !! q = Some x → disk w' !! q = Some x)
    ∧ (∀ q : string,
         normal_path q = true →
         q ≠ project_path pid (name f) → q ≠ "files" → q ≠ project_dir pid →
         disk w' !! q = disk w !! q).
Proof.
  intros Hpid Hname Hdb Hdisk. eexists _, _.
  split; [by apply upload_file_ok |]. cbn.
  repeat (split; [reflexivity |]).
  split.
  - intros q x _ Hq Hx. by apply disk_with_upload_other.
  - intros q _ H1 H2 H3. rewrite lookup_insert_ne by done.
    by rewrite !ensure_dir_lookup_ne.
Qed.

Lemma upload_file_frame_witness :
  ∃ (w' : world) (r : file_row),
    upload_file 1 (Some spec_pdf) example_project = (Returned tt, w')
    ∧ projects w' = projects example_project
    ∧ project_files w' = project_files example_project ++ [r]
    ∧ disk w' !! "cistech.png" = disk example_project !! "cistech.png".
Proof.
  destruct (upload_file_frame example_project 1 spec_pdf eq_refl eq_refl eq_refl eq_refl)
    as (w' & r & Hrun & Hp & _ & Hf & _ & _ & Hother).
  exists w', r. split; [exact Hrun |]. split; [exact Hp |]. split; [exact Hf |].
  apply Hother; [reflexivity | discriminate ..].
Defined.

Lemma upload_each_cons (pid : Z) (n : string) (b : list byte)
    (bs : list (list byte)) (w : world) :
  upload_each pid n (b :: bs) w
  = upload_each pid n bs (run (upload_file pid (Some (Upload n b))) w).
Proof. reflexivity. Qed.

Lemma upload_each_rows (pid : Z) (n : string) (contents : list (list byte)) (w : world) :
  in_int64 pid = true →
  storable_name n = true →
  db_fault w = None →
  disk_accepts (disk w) pid n = true →
  ∃ rows : list file_row,
    project_files (upload_each pid n contents w) = project_files w ++ rows
    ∧ length rows = length contents
    ∧ Forall (λ r, project_id r = pid ∧ file_name r = n
                   ∧ file_path r = project_path pid n) rows
    ∧ (∀ b, last contents = Some b →
         disk (upload_each pid n contents w) !! project_path pid n = Some (File b)).
Proof.
  intros Hpid Hname. pose proof (storable_name_spec _ Hname) as (Hvalid & _ & _).
  revert w.
  induction contents as [| b bs IH]; intros w Hdb Hacc.
  - exists []. cbn. rewrite app_nil_r. done.
  - rewrite upload_each_cons. unfold run. rewrite upload_file_ok by done. cbn [snd].
    destruct (IH (after_upload pid (Upload n b) w)) as (rows & Hrows & Hlen & Hall & Hlast).
    { by destruct w. }
    { destruct w as [ps sp fs sf d fault ts pg]. cbn [after_upload disk with_page
        with_project_files with_disk name getbuffer].
      by apply (disk_with_upload_accepts pid (Upload n b) (Upload n b)). }
    eexists (_ :: rows). rewrite Hrows. cbn [after_upload project_files with_page
      with_project_files with_disk name getbuffer].
    rewrite <- app_assoc. split; [reflexivity |].
    split; [cbn; by rewrite Hlen |].
    split; [by constructor |].
    intros b'. destruct bs as [| b2 bs'].
    + intros [= <-]. cbn. apply lookup_insert_eq.
    + intros Hb'. by apply Hlast.
Qed.

(** X6.  For a project id that SQLite can hold and a plain file name that the
    file system can hold: uploading the name for the project several times
    leaves as many rows as there were uploads, all with the same project,
    name and path, and a single file at that path, which holds the bytes of
    the last upload. *)
Theorem repeated_upload_one_blob
    (w : world) (pid : Z) (n : string) (earlier : list (list byte)) (final : list byte) :
  in_int64 pid = true →
  storable_name n = true →
  db_fault w = None →
  disk_accepts (disk w) pid n = true →
  ∃ rows : list file_row,
    project_files (upload_each pid n (earlier ++ [final]) w) = project_files w ++ rows
    ∧ length rows = S (length earlier)
    ∧ Forall (λ r, project_id r = pid ∧ file_name r = n
                   ∧ file_path r = project_path pid n) rows
    ∧ disk (upload_each pid n (earlier ++ [final]) w) !! project_path pid n
      = Some (File final).
Proof.
  intros Hpid Hname Hdb Hacc.
  destruct (upload_each_rows pid n (earlier ++ [final]) w Hpid Hname Hdb Hacc)
    as (rows & Hrows & Hlen & Hall & Hlast).
  exists rows. split; [done |].
  split; [rewrite Hlen, length_app; cbn; lia |].
  split; [done |].
  apply Hlast. by rewrite last_snoc.
Qed.

Lemma repeated_upload_one_blob_witness :
  ∃ rows : list file_row,
    project_files (upload_each 1 "spec.pdf"
                     ([getbuffer spec_pdf] ++ [getbuffer spec_pdf_again]) example_project)
    = project_files example_project ++ rows
    ∧ length rows = S (length [getbuffer spec_pdf])
    ∧ Forall (λ r, project_id r = 1 ∧ file_name r = "spec.pdf"
                   ∧ file_path r = project_path 1 "spec.pdf") rows
    ∧ disk (upload_each 1 "spec.pdf"
              ([getbuffer spec_pdf] ++ [getbuffer spec_pdf_again]) example_project)
        !! project_path 1 "spec.pdf"
      = Some (File (getbuffer spec_pdf_again)).
Proof.
  apply (repeated_upload_one_blob example_project 1 "spec.pdf"
           [getbuffer spec_pdf] (getbuffer spec_pdf_again)); reflexivity.
Defined.

(** ** What every call keeps *)

Lemma mkdir_each_disk (target : string) (ps : list string) (w : world) :
  ∃ (o : outcome unit) (d' : gmap string node),
    mkdir_each target ps w = (o, with_disk d' w)
    ∧ (∀ q x, disk w !! q = Some x → d' !! q = Some x).
Proof.
  revert w. induction ps as [| p ps IH]; intros w.
  - exists (Returned tt), (disk w). split; [by destruct w | done].
  - destruct w as [pr sp fs sf d fault ts pg]. cbn [mkdir_each disk].
    destruct (path_problem p) as [e |].
    { exists (Raised e), d. split; [reflexivity | done]. }
    destruct (d !! p) as [[] |] eqn:E.
    + eexists _, d. split; [reflexivity | done].
    + apply (IH (World pr sp fs sf d fault ts pg)).
    + destruct (IH (World pr sp fs sf (<[p := Dir]> d) fault ts pg))
        as (o & d' & Hrun & Hkeep).
      exists o, d'. split; [exact Hrun |].
      intros q x Hq. apply Hkeep. cbn.
      rewrite lookup_insert_ne; [done |]. intros ->. cbn in Hq. congruence.
Qed.

Lemma open_wb_disk (path : string) (data : list byte) (w : world) :
  (∃ e, open_wb path data w = (Raised e, w))
  ∨ (open_wb path data w = (Returned tt, with_disk (<[path := File data]> (disk w)) w)
     ∧ no_dir_at (disk w) path = true).
Proof.
  unfold open_wb, no_dir_at.
  destruct (path_problem path) as [e |]; [left; eexists; reflexivity |].
  destruct (negb (is_component (basename path))); [left; eexists; reflexivity |].
  destruct (dirname path) as [| c rest].
  - destruct (disk w !! path) as [[] |];
      [by right | left; eexists; reflexivity | by right].
  - destruct (disk w !! String c rest) as [[] |];
      [left; eexists; reflexivity | | left; eexists; reflexivity].
    destruct (disk w !! path) as [[] |];
      [by right | left; eexists; reflexivity | by right].
Qed.

(** The outcomes of [upload_file] on any world: it raises having changed at
    most the disk, and that only by adding entries; or the database
    answers and it returns having written the file and appended the row. *)
Lemma upload_file_outcomes (w : world) (pid : Z) (f : UploadedFile) :
  (∃ e d', upload_file pid (Some f) w = (Raised e, with_disk d' w)
           ∧ (∀ q x, disk w !! q = Some x → is_file d' q = is_file (disk w) q
                                            ∨ q = os_path_join ("files/project_" +:+ pretty pid +:+ "/") (name f)
                                              ∧ is_file d' q = true))
  ∨ (∃ d',
       upload_file pid (Some f) w
       = (Returned tt,
          with_page (page w ++ [Success "File uploaded successfully!"])
            (with_project_files
               (project_files w
                  ++ [FileRow (next_rowid (seq_project_files w) (f_id <$> project_files w))
                        pid (name f)
                        (os_path_join ("files/project_" +:+ pretty pid +:+ "/") (name f))
                        (now w)])
               (next_rowid (seq_project_files w) (f_id <$> project_files w))
               (with_disk d' w)))
       ∧ is_file d' (os_path_join ("files/project_" +:+ pretty pid +:+ "/") (name f)) = true
       ∧ (∀ q x, disk w !! q = Some x →
            is_file d' q = is_file (disk w) q
            ∨ q = os_path_join ("files/project_" +:+ pretty pid +:+ "/") (name f))).
Proof.
  set (dir := "files/project_" +:+ pretty pid +:+ "/").
  set (path := os_path_join dir (name f)).
  assert (upload_file pid (Some f) w
          = match mkdir_each dir (dir_prefixes dir) w with
            | (Returned _, w1) =>
                match open_wb path (getbuffer f) w1 with
                | (Returned _, w2) =>
                    (insert_into_project_files pid (name f) path;;
                     st_success "File uploaded successfully!") w2
                | (Raised e, w2) => (Raised e, w2)
                end
            | (Raised e, w1) => (Raised e, w1)
            end) as ->.
  { unfold upload_file, os_makedirs, mbind, py_bind.
    fold dir. fold path.
    destruct (mkdir_each dir (dir_prefixes dir) w) as [[[] | e] w1]; [| done].
    by destruct (open_wb path (getbuffer f) w1) as [[[] | e] w2]. }
  destruct (mkdir_each_disk dir (dir_prefixes dir) w) as (o & d1 & Hmk & Hkeep).
  assert (∀ q x, disk w !! q = Some x → is_file d1 q = is_file (disk w) q) as Hsame.
  { intros q x Hq. unfold is_file. by rewrite Hq, (Hkeep q x Hq). }
  rewrite Hmk.
  destruct o as [[] | e].
  2: { left. exists e, d1. split; [done |]. intros q x Hq. left. by eapply Hsame. }
  destruct (open_wb_disk path (getbuffer f) (with_disk d1 w)) as [[e He] | [Hw _]].
  { left. exists e, d1. rewrite He. split; [done |].
    intros q x Hq. left. by eapply Hsame. }
  rewrite Hw.
  assert (∀ q x, disk w !! q = Some x →
            is_file (<[path := File (getbuffer f)]> d1) q = is_file (disk w) q
            ∨ q = path) as Hsame'.
  { intros q x Hq. destruct (decide (q = path)) as [-> | Hne]; [by right |].
    left. unfold is_file at 1. rewrite lookup_insert_ne by done.
    by apply (Hsame q x). }
  assert (is_file (<[path := File (getbuffer f)]> d1) path = true) as Hnew.
  { unfold is_file. by rewrite lookup_insert_eq. }
  destruct w as [pr sp fs sf d fault ts pg]. cbn [disk with_disk projects seq_projects
    project_files seq_project_files db_fault now page] in *.
  unfold insert_into_project_files, execute, mbind, py_bind.
  cbn [forallb bindable andb db_fault]. rewrite andb_true_r.
  destruct (in_int64 pid).
  2: { left. exists OverflowError, (<[path := File (getbuffer f)]> d1).
       split; [reflexivity |].
       intros q x Hq. destruct (Hsame' q x Hq) as [? | ->]; [by left | right; done]. }
  destruct fault as [msg |].
  - left. exists (sqlite3_Error msg), (<[path := File (getbuffer f)]> d1).
    split; [reflexivity |].
    intros q x Hq. destruct (Hsame' q x Hq) as [? | ->]; [by left | right; done].
  - right. exists (<[path := File (getbuffer f)]> d1).
    split; [reflexivity |]. split; [done |]. exact Hsame'.
Qed.

Lemma ids_after_update (i : Z) (n c p s ds de : string) (rows : list project_row) :
  p_id <$> ((λ r, if bool_decide (p_id r = i) then ProjectRow (p_id r) n c p s ds de else r)
              <$> rows)
  = p_id <$> rows.
Proof.
  rewrite <- list_fmap_compose. apply list_fmap_ext.
  intros k r _. cbn. by case_bool_decide.
Qed.

(** What one call does to the two tables: the invariant of the ids is
    kept, the counters do not go down, and the condition of the database
    is not the program's to change. *)
Lemma perform_tables (a : action) (w : world) :
  db_ok w = true →
  db_ok (run (perform a) w) = true
  ∧ seq_projects w ≤ seq_projects (run (perform a) w)
  ∧ seq_project_files w ≤ seq_project_files (run (perform a) w)
  ∧ db_fault (run (perform a) w) = db_fault w.
Proof.
  intros Hok. pose proof (db_ok_tables _ Hok) as [Hp Hf].
  assert (∀ n c p s d1 d2,
    db_ok (run (add_project n c p s d1 d2) w) = true
    ∧ seq_projects w ≤ seq_projects (run (add_project n c p s d1 d2) w)
    ∧ seq_project_files w ≤ seq_project_files (run (add_project n c p s d1 d2) w)
    ∧ db_fault (run (add_project n c p s d1 d2) w) = db_fault w) as Hadd.
  { intros n c p s d1 d2. unfold run.
    destruct (db_fault w) as [msg |] eqn:Hdb.
    - run_fault Hdb. by destruct w.
    - rewrite add_project_ok by done. unfold db_ok. cbn.
      rewrite next_rowid_ok by done. rewrite fmap_app. cbn.
      rewrite table_ok_insert, Hf by done. repeat split; try lia; done. }
  destruct a as [n c p s d1 d2 | n c p s d1 d2 | i n c p s d1 d2 | i | pid [f |] | i | | pid];
    cbn [perform].
  - unfold tab2_submit. destruct (truthy n && truthy p); cbn; [apply Hadd |].
    unfold run, st_error, emit_element. by destruct w.
  - apply Hadd.
  - unfold run. destruct (in_int64 i) eqn:Hi.
    2: { rewrite update_project_overflow by done. cbn. repeat split; try lia; done. }
    destruct (db_fault w) as [msg |] eqn:Hdb.
    + run_fault Hdb. by destruct w.
    + rewrite update_project_ok by done. unfold db_ok. cbn.
      rewrite ids_after_update, Hp, Hf. repeat split; try lia; done.
  - unfold run. destruct (in_int64 i) eqn:Hi.
    2: { rewrite delete_project_overflow by done. cbn. repeat split; try lia; done. }
    destruct (db_fault w) as [msg |] eqn:Hdb.
    + run_fault Hdb. by destruct w.
    + rewrite delete_project_ok by done. unfold db_ok. cbn.
      rewrite Hf, andb_true_r. repeat split; try lia; try done.
      eapply table_ok_sublist; [| exact Hp]. apply fmap_sublist, sublist_filter.
  - unfold run.
    destruct (upload_file_outcomes w pid f) as [(e & d' & -> & _) | (d' & -> & _)].
    + by destruct w.
    + unfold db_ok. cbn. rewrite next_rowid_ok by done. rewrite fmap_app. cbn.
      rewrite table_ok_insert by done.
      destruct w; cbn in *. rewrite Hp. repeat split; try lia; done.
  - unfold run. cbn. repeat split; try lia; done.
  - unfold run. destruct (in_int64 i) eqn:Hi.
    2: { rewrite delete_file_overflow by done. by destruct w. }
    destruct (db_fault w) as [msg |] eqn:Hdb.
    + rewrite (delete_file_fault _ _ msg) by done. by destruct w.
    + pose proof (delete_file_by_name w i Hi Hdb) as Hcases.
      destruct (head (filter (λ r, f_id r = i) (project_files w))) as [r |].
      * destruct (disk w !! file_name r) as [[] |]; rewrite Hcases;
          destruct w; unfold db_ok; cbn in *; repeat split; try lia; try done.
        rewrite Hp. cbn.
        eapply table_ok_sublist; [| exact Hf]. apply fmap_sublist, sublist_filter.
      * rewrite Hcases. by destruct w.
  - unfold run. destruct (db_fault w) as [msg |] eqn:Hdb.
    + run_fault Hdb. by destruct w.
    + unfold mbind, py_bind. rewrite get_all_projects_ok by done. cbn.
      repeat split; try lia; done.
  - unfold run. destruct (tab5_files_page pid w) as (o & pg & ->). by destruct w.
Qed.

Lemma ascending_from_NoDup (lo : Z) (ids : list Z) :
  ascending_from lo ids = true → NoDup ids.
Proof.
  revert lo. induction ids as [| i ids IH]; intros lo; cbn; [constructor |].
  intros [_ Hrest]%andb_prop. constructor; [| by eapply IH].
  intros Hin. apply ascending_from_bounds in Hrest.
  rewrite Forall_forall in Hrest. specialize (Hrest i Hin). lia.
Qed.

Lemma perform_all_tables (actions : list action) (w : world) :
  db_ok w = true →
  db_ok (perform_all actions w) = true
  ∧ seq_projects w ≤ seq_projects (perform_all actions w)
  ∧ seq_project_files w ≤ seq_project_files (perform_all actions w)
  ∧ db_fault (perform_all actions w) = db_fault w.
Proof.
  revert w. induction actions as [| a actions IH]; intros w Hok.
  - cbn. repeat split; try lia; done.
  - destruct (perform_tables a w Hok) as (Hok' & Hp & Hf & Hdb).
    destruct (IH (run (perform a) w) Hok') as (Hok'' & Hp' & Hf' & Hdb').
    change (perform_all (a :: actions) w) with (perform_all actions (run (perform a) w)).
    repeat split; [done | lia | lia | congruence].
Qed.

(** X7.  Whatever calls are made, in whatever order and with whatever outcome,
    the ids of each table stay positive, distinct and ascending, and an id
    that a row had at some time is never given to a later row: the next id
    to be assigned is larger than the id of every row there ever was. *)
Theorem ids_are_never_reused (actions : list action) (w : world) :
  db_ok w = true →
  db_ok (perform_all actions w) = true
  ∧ NoDup (p_id <$> projects (perform_all actions w))
  ∧ NoDup (f_id <$> project_files (perform_all actions w))
  ∧ (∀ r : project_row, r ∈ projects w →
       p_id r < next_rowid (seq_projects (perform_all actions w))
                           (p_id <$> projects (perform_all actions w)))
  ∧ (∀ r : file_row, r ∈ project_files w →
       f_id r < next_rowid (seq_project_files (perform_all actions w))
                           (f_id <$> project_files (perform_all actions w))).
Proof.
  intros Hok. destruct (perform_all_tables actions w Hok) as (Hok' & Hp & Hf & _).
  destruct (db_ok_tables _ Hok) as [Hpt Hft].
  destruct (db_ok_tables _ Hok') as [Hpt' Hft'].
  split; [done |].
  split.
  { unfold table_ok in Hpt'. apply andb_prop in Hpt' as [[_ Hasc]%andb_prop _].
    by eapply ascending_from_NoDup. }
  split.
  { unfold table_ok in Hft'. apply andb_prop in Hft' as [[_ Hasc]%andb_prop _].
    by eapply ascending_from_NoDup. }
  split.
  - intros r Hr. rewrite next_rowid_ok by done.
    apply table_ok_bounds in Hpt. rewrite Forall_forall in Hpt.
    assert (p_id r ∈ p_id <$> projects w) as Hin by by apply list_elem_of_fmap_2.
    specialize (Hpt _ Hin). lia.
  - intros r Hr. rewrite next_rowid_ok by done.
    apply table_ok_bounds in Hft. rewrite Forall_forall in Hft.
    assert (f_id r ∈ f_id <$> project_files w) as Hin by by apply list_elem_of_fmap_2.
    specialize (Hft _ Hin). lia.
Qed.

Lemma ids_are_never_reused_witness :
  db_ok (perform_all [DeleteProject 1;
                      AddProject "B" "Service" "Bob" "Completed"
                        (Date 2024 3 1) (Date 2024 4 1)] example_busy) = true
  ∧ p_id <$> projects (perform_all [DeleteProject 1;
                                    AddProject "B" "Service" "Bob" "Completed"
                                      (Date 2024 3 1) (Date 2024 4 1)] example_busy)
    = [2].
Proof.
  split; [| reflexivity].
  exact (proj1 (ids_are_never_reused
                  [DeleteProject 1;
                   AddProject "B" "Service" "Bob" "Completed"
                     (Date 2024 3 1) (Date 2024 4 1)] example_busy eq_refl)).
Defined.


(** ** The file listing *)

(** X8.  With the database answering and a regular file at the file_path of
    every row of the selected project, the listing returns normally and
    adds to the page, for each such row in table order, its name and a
    download button that carries the bytes at the row's path, the row's
    name and the key download-<id>; with no row for the project it adds the
    note "No files found for this project." and nothing else. *)
Theorem tab5_files_draws_every_row (w : world) (pid : Z) :
  db_fault w = None →
  Forall (λ r, project_id r = pid → is_file (disk w) (file_path r) = true)
         (project_files w) →
  tab5_files pid w
  = (Returned tt,
     with_page
       (page w ++
        match listed <$> filter (λ r, project_id r = pid) (project_files w) with
        | [] => [Info "No files found for this project."]
        | rows => rows ≫= drawn (disk w)
        end) w).
Proof. exact (tab5_files_drawn w pid). Qed.

Lemma tab5_files_draws_every_row_witness :
  tab5_files 1 example_twice
  = (Returned tt,
     with_page
       (page example_twice ++
        [Text "spec.pdf";
         DownloadButton "Download" (getbuffer spec_pdf_again) "spec.pdf"
           "application/octet-stream" "download-1";
         Text "spec.pdf";
         DownloadButton "Download" (getbuffer spec_pdf_again) "spec.pdf"
           "application/octet-stream" "download-2"]) example_twice)
  ∧ tab5_files 2 example_twice
    = (Returned tt,
       with_page (page example_twice ++ [Info "No files found for this project."])
         example_twice).
Proof.
  split.
  - apply (tab5_files_draws_every_row example_twice 1 eq_refl).
    repeat constructor.
  - apply (tab5_files_draws_every_row example_twice 2 eq_refl).
    repeat constructor; discriminate.
Defined.

(** ** Files on the disk behind the rows *)

Lemma blobs_ok_spec (w : world) :
  blobs_ok w = true ↔
  Forall (λ r, has_slash (file_name r) = false ∧ has_slash (file_path r) = true
               ∧ is_file (disk w) (file_path r) = true) (project_files w).
Proof.
  unfold blobs_ok. induction (project_files w) as [| r rows IH]; cbn.
  - split; [constructor | done].
  - rewrite andb_true_iff, IH, Forall_cons, !andb_true_iff, negb_true_iff. tauto.
Qed.

Lemma blobs_ok_same (w w' : world) :
  project_files w' = project_files w → disk w' = disk w →
  blobs_ok w = true → blobs_ok w' = true.
Proof. unfold blobs_ok. by intros -> ->. Qed.

Lemma has_slash_project_path (pid : Z) (n : string) :
  has_slash (project_path pid n) = true.
Proof. reflexivity. Qed.

Lemma perform_blobs (a : action) (w : world) :
  plain_upload a = true → blobs_ok w = true → blobs_ok (run (perform a) w) = true.
Proof.
  intros Hplain Hok.
  assert (∀ n c p s d1 d2, blobs_ok (run (add_project n c p s d1 d2) w) = true) as Hadd.
  { intros n c p s d1 d2. unfold run. destruct (db_fault w) as [msg |] eqn:Hdb.
    - run_fault Hdb. by destruct w.
    - rewrite add_project_ok by done. by destruct w. }
  destruct a as [n c p s d1 d2 | n c p s d1 d2 | i n c p s d1 d2 | i | pid [f |] | i | | pid];
    cbn [perform].
  - unfold tab2_submit. destruct (truthy n && truthy p); cbn; [apply Hadd |].
    unfold run, st_error, emit_element. by destruct w.
  - apply Hadd.
  - unfold run. destruct (in_int64 i) eqn:Hi.
    2: { by rewrite update_project_overflow by done. }
    destruct (db_fault w) as [msg |] eqn:Hdb.
    + run_fault Hdb. by destruct w.
    + rewrite update_project_ok by done. by destruct w.
  - unfold run. destruct (in_int64 i) eqn:Hi.
    2: { by rewrite delete_project_overflow by done. }
    destruct (db_fault w) as [msg |] eqn:Hdb.
    + run_fault Hdb. by destruct w.
    + rewrite delete_project_ok by done. by destruct w.
  - cbn in Hplain. pose proof (valid_file_name_spec _ Hplain) as (Hslash & Hstart & _).
    apply blobs_ok_spec in Hok. unfold run.
    destruct (upload_file_outcomes w pid f)
      as [(e & d' & Hrun & Hkeep) | (d' & Hrun & Hnew & Hkeep)];
      rewrite join_project_dir in * by done; rewrite Hrun; clear Hrun.
    + apply blobs_ok_spec. destruct w as [pr sp fs sf d fault ts pg].
      cbn [project_files disk with_page with_project_files with_disk snd] in *.
      eapply Forall_impl; [exact Hok |]. cbn beta.
      intros r (H1 & H2 & H3). repeat split; [done | done |].
      unfold is_file in H3.
      destruct (d !! file_path r) as [x |] eqn:E; [| done].
      destruct (Hkeep _ _ E) as [-> | [_ ->]]; [| done].
      unfold is_file. by rewrite E.
    + apply blobs_ok_spec. destruct w as [pr sp fs sf d fault ts pg].
      cbn [project_files disk with_page with_project_files with_disk snd] in *.
      apply Forall_app. split.
      * eapply Forall_impl; [exact Hok |]. cbn beta.
        intros r (H1 & H2 & H3). repeat split; [done | done |].
        unfold is_file in H3.
        destruct (d !! file_path r) as [x |] eqn:E; [| done].
        destruct (Hkeep _ _ E) as [-> | ->]; [| done].
        unfold is_file. by rewrite E.
      * constructor; [| constructor].
        cbn [file_name file_path]. by rewrite has_slash_project_path.
  - done.
  - unfold run. destruct (in_int64 i) eqn:Hi.
    2: { rewrite delete_file_overflow by done. by destruct w. }
    destruct (db_fault w) as [msg |] eqn:Hdb.
    + rewrite (delete_file_fault _ _ msg) by done. by destruct w.
    + pose proof (delete_file_by_name w i Hi Hdb) as Hcases.
      destruct (head (filter (λ r, f_id r = i) (project_files w))) as [r0 |] eqn:Hhead.
      * destruct (disk w !! file_name r0) as [[] |]; rewrite Hcases;
          try (by destruct w).
        apply head_Some_elem_of, list_elem_of_filter in Hhead as [_ Hr0].
        apply blobs_ok_spec in Hok. apply blobs_ok_spec.
        pose proof Hok as Hall. rewrite Forall_forall in Hall.
        destruct (Hall _ Hr0) as (Hname0 & _ & _).
        destruct w as [pr sp fs sf d fault ts pg]. cbn in *.
        apply Forall_forall. intros r [_ Hr]%list_elem_of_filter.
        destruct (Hall _ Hr) as (H1 & H2 & H3). repeat split; [done | done |].
        unfold is_file. rewrite lookup_delete_ne; [done |].
        intros E. rewrite E in Hname0. congruence.
      * rewrite Hcases. by destruct w.
  - unfold run. destruct (db_fault w) as [msg |] eqn:Hdb.
    + run_fault Hdb. by destruct w.
    + unfold mbind, py_bind. rewrite get_all_projects_ok by done. done.
  - unfold run. destruct (tab5_files_page pid w) as (o & pg & ->). by destruct w.
Qed.

Lemma perform_all_blobs (actions : list action) (w : world) :
  forallb plain_upload actions = true → blobs_ok w = true →
  blobs_ok (perform_all actions w) = true.
Proof.
  revert w. induction actions as [| a actions IH]; intros w; cbn [forallb]; [done |].
  intros [Ha Hrest]%andb_prop Hok.
  change (perform_all (a :: actions) w) with (perform_all actions (run (perform a) w)).
  apply IH; [done |]. by apply perform_blobs.
Qed.

(** X9.  As long as the uploaded names are plain file names and nothing but the
    program touches the disk, every row of [project_files] keeps a regular
    file at its file_path through any sequence of calls, failed ones and
    calls of [delete_file] included; so with the database answering the
    file listing of any project returns normally. *)
Theorem listing_never_fails (actions : list action) (w : world) (pid : Z) :
  db_ok w = true → blobs_ok w = true → db_fault w = None →
  forallb plain_upload actions = true →
  blobs_ok (perform_all actions w) = true
  ∧ ∃ pg : list element,
      tab5_files pid (perform_all actions w)
      = (Returned tt, with_page (page (perform_all actions w) ++ pg) (perform_all actions w)).
Proof.
  intros Hdb Hblobs Hfault Hplain.
  pose proof (perform_all_blobs actions w Hplain Hblobs) as Hblobs'.
  destruct (perform_all_tables actions w Hdb) as (_ & _ & _ & Hfault').
  split; [done |]. eexists.
  apply tab5_files_drawn; [congruence |].
  apply blobs_ok_spec in Hblobs'.
  eapply Forall_impl; [exact Hblobs' |]. cbn. by intros r (_ & _ & ?) _.
Qed.

Lemma listing_never_fails_witness :
  blobs_ok (perform_all [AddProject "P" "Project" "Alice" "On Hold"
                           (Date 2024 1 1) (Date 2024 2 1);
                         UploadFile 1 (Some spec_pdf);
                         UploadFile 1 (Some spec_pdf_again);
                         DeleteFile 1;
                         DeleteProject 1] example_start) = true
  ∧ ∃ pg : list element,
      tab5_files 1 (perform_all [AddProject "P" "Project" "Alice" "On Hold"
                                   (Date 2024 1 1) (Date 2024 2 1);
                                 UploadFile 1 (Some spec_pdf);
                                 UploadFile 1 (Some spec_pdf_again);
                                 DeleteFile 1;
                                 DeleteProject 1] example_start)
      = (Returned tt,
         with_page (page (perform_all [AddProject "P" "Project" "Alice" "On Hold"
                                         (Date 2024 1 1) (Date 2024 2 1);
                                       UploadFile 1 (Some spec_pdf);
                                       UploadFile 1 (Some spec_pdf_again);
                                       DeleteFile 1;
                                       DeleteProject 1] example_start) ++ pg)
           (perform_all [AddProject "P" "Project" "Alice" "On Hold"
                           (Date 2024 1 1) (Date 2024 2 1);
                         UploadFile 1 (Some spec_pdf);
                         UploadFile 1 (Some spec_pdf_again);
                         DeleteFile 1;
                         DeleteProject 1] example_start)).
Proof.
  apply (listing_never_fails
           [AddProject "P" "Project" "Alice" "On Hold" (Date 2024 1 1) (Date 2024 2 1);
            UploadFile 1 (Some spec_pdf);
            UploadFile 1 (Some spec_pdf_again);
            DeleteFile 1;
            DeleteProject 1] example_start 1); reflexivity.
Defined.


(** ** The edit tab *)

Lemma list_index_lookup (x : string) (l : list string) (i : nat) :
  list_index x l = Some i → l !! i = Some x.
Proof.
  revert i. induction l as [| y l IH]; intros i; cbn; [done |].
  case_bool_decide as Hy.
  - intros [= <-]. by subst.
  - destruct (list_index x l) as [j |]; cbn; [| done].
    intros [= <-]. cbn. by apply IH.
Qed.

Lemma list_index_elem_of (x : string) (l : list string) :
  x ∈ l → is_Some (list_index x l).
Proof.
  induction l as [| y l IH]; [by intros ?%not_elem_of_nil |].
  intros Hin. cbn. case_bool_decide as Hy; [by eexists |].
  apply elem_of_cons in Hin as [-> | Hin]; [done |].
  destruct (IH Hin) as [j ->]. by eexists.
Qed.

Lemma list_index_None (x : string) (l : list string) :
  x ∉ l → list_index x l = None.
Proof.
  induction l as [| y l IH]; [done |].
  intros Hnot. cbn. rewrite not_elem_of_cons in Hnot. destruct Hnot as [Hne Hnot].
  rewrite bool_decide_eq_false_2 by done. by rewrite IH.
Qed.

Lemma row_of_id_unique (rows : list project_row) (r r' : project_row) :
  NoDup (p_id <$> rows) → r ∈ rows → r' ∈ rows → p_id r' = p_id r → r' = r.
Proof.
  induction rows as [| r0 rows IH]; [by intros _ ?%not_elem_of_nil |].
  rewrite fmap_cons, NoDup_cons. intros [Hfresh Hnd] Hr Hr' Hid.
  apply elem_of_cons in Hr as [-> | Hr], Hr' as [-> | Hr']; [done | | | by apply IH].
  - exfalso. apply Hfresh. rewrite <- Hid. by apply list_elem_of_fmap_2.
  - exfalso. apply Hfresh. rewrite Hid. by apply list_elem_of_fmap_2.
Qed.

Lemma head_filter_id (rows : list project_row) (r : project_row) :
  NoDup (p_id <$> rows) → r ∈ rows →
  head (filter (λ r', p_id r' = p_id r) rows) = Some r.
Proof.
  intros Hnd Hr.
  assert (r ∈ filter (λ r', p_id r' = p_id r) rows) as Hin
    by (by apply list_elem_of_filter).
  destruct (filter (λ r', p_id r' = p_id r) rows) as [| r0 rest] eqn:E;
    [by apply not_elem_of_nil in Hin |].
  cbn. f_equal.
  assert (r0 ∈ filter (λ r', p_id r' = p_id r) rows) as H0 by (rewrite E; left).
  apply list_elem_of_filter in H0 as [Hid H0]. by eapply row_of_id_unique.
Qed.

Lemma db_ok_NoDup (w : world) :
  db_ok w = true → NoDup (p_id <$> projects w).
Proof.
  intros [Hp _]%db_ok_tables. unfold table_ok in Hp.
  apply andb_prop in Hp as [[_ Hasc]%andb_prop _]. by eapply ascending_from_NoDup.
Qed.

Lemma date_input_check_None (today d1 d2 : date) :
  toordinal today - 365 ≤ toordinal d1 → toordinal d2 ≤ toordinal today + 365 →
  date_input_check today d1 d2 = None.
Proof.
  intros H1 H2. unfold date_input_check.
  destruct (Z.ltb_spec (toordinal d1) (toordinal today - 365)); [lia |].
  destruct (Z.ltb_spec (toordinal today + 365) (toordinal d2)); [lia | done].
Qed.

(** X10.  A row that the add form can have stored (an id that SQLite can
    hold, category and status among the options, name and PIC not empty,
    dates printed from calendar dates of the years 1000 to 9999) and whose
    dates, the start not after the end, lie within the 365 days before and
    after today, which is what [st.date_input] accepts as a default, opens
    in the edit form with
    exactly those values as defaults; submitting the form without changing
    anything reports success and leaves the table of projects as it was. *)
Theorem edit_form_round_trip (w : world) (today : date) (r : project_row) (d1 d2 : date) :
  db_fault w = None → db_ok w = true → r ∈ projects w →
  in_int64 (p_id r) = true →
  category r ∈ category_options → status r ∈ status_options →
  project_name r ≠ "" → pic r ≠ "" →
  valid_date today = true → valid_date d1 = true → valid_date d2 = true →
  1000 ≤ year d1 → 1000 ≤ year d2 →
  toordinal today - 365 ≤ toordinal d1 → toordinal d1 ≤ toordinal d2 →
  toordinal d2 ≤ toordinal today + 365 →
  date_start r = strftime_Ymd d1 → date_end r = strftime_Ymd d2 →
  ∃ form : edit_form,
    tab3_defaults today (projects w) (p_id r) = inr form
    ∧ category_options !! category_index form = Some (category r)
    ∧ projname_value form = project_name r
    ∧ pic_value form = pic r
    ∧ status_options !! status_index form = Some (status r)
    ∧ start_value form = d1
    ∧ end_value form = d2
    ∧ tab3_submit (p_id r) (project_name r) (category r) (pic r) (status r) d1 d2 w
      = (Returned tt, with_page (page w ++ [Success "Project updated successfully!"]) w).
Proof.
  intros Hdb Hok Hr Hid Hcat Hst Hn Hp _ Hv1 Hv2 Hy1 Hy2 Hmin _ Hmax Hs He.
  pose proof (db_ok_NoDup _ Hok) as Hnd.
  destruct (list_index_elem_of _ _ Hcat) as [ci Hci].
  destruct (list_index_elem_of _ _ Hst) as [si Hsi].
  exists (EditForm ci (project_name r) (pic r) si d1 d2).
  split.
  { unfold tab3_defaults. rewrite head_filter_id by done.
    rewrite Hci, Hsi, Hs, He, !strptime_strftime by done.
    by rewrite date_input_check_None. }
  split; [by apply list_index_lookup |].
  split; [done |]. split; [done |].
  split; [by apply list_index_lookup |].
  split; [done |]. split; [done |].
  unfold tab3_submit, truthy. rewrite !bool_decide_eq_false_2 by done.
  cbn [negb andb length Nat.eqb].
  rewrite update_project_ok by done. do 2 f_equal.
  destruct w as [pr sp fs sf d fault ts pg].
  cbn [projects seq_projects project_files seq_project_files disk db_fault now page] in *.
  unfold with_projects.
  cbn [projects seq_projects project_files seq_project_files disk db_fault now page].
  f_equal. rewrite <- (list_fmap_id pr) at 2. apply list_fmap_ext.
  intros k r' Hk. cbn beta.
  destruct (bool_decide_reflect (p_id r' = p_id r)) as [Hid' | Hid']; [| done].
  assert (r' = r) as ->.
  { apply (row_of_id_unique pr); [done | done | | done].
    by eapply list_elem_of_lookup_2. }
  destruct r. cbn [p_id project_name category pic status date_start date_end] in *.
  by subst.
Qed.

Lemma edit_form_round_trip_witness :
  ∃ form : edit_form,
    tab3_defaults (Date 2024 1 15) (projects example_busy) 1 = inr form
    ∧ category_options !! category_index form = Some "Project"
    ∧ projname_value form = "Portal Revamp"
    ∧ pic_value form = "Alice"
    ∧ status_options !! status_index form = Some "In Progress"
    ∧ start_value form = Date 2024 1 1
    ∧ end_value form = Date 2024 2 1
    ∧ tab3_submit 1 "Portal Revamp" "Project" "Alice" "In Progress"
        (Date 2024 1 1) (Date 2024 2 1) example_busy
      = (Returned tt,
         with_page (page example_busy ++ [Success "Project updated successfully!"])
           example_busy).
Proof.
  apply (edit_form_round_trip example_busy (Date 2024 1 15)
           (ProjectRow 1 "Portal Revamp" "Project" "Alice" "In Progress"
              "2024-01-01" "2024-02-01") (Date 2024 1 1) (Date 2024 2 1));
    try reflexivity; try discriminate; try (by vm_compute).
  - left.
  - left.
  - do 3 right. left.
Defined.

(** X11.  The edit form cannot be opened for a row whose category is not one of
    the two options, and [add_project] stores any category: after such an
    insertion the defaults of the new row fail with the ValueError of
    [list.index], whatever day it is. *)
Theorem edit_form_fails_on_other_category
    (w : world) (today : date) (n c p s : string) (d1 d2 : date) :
  db_fault w = None → db_ok w = true → c ∉ category_options →
  tab3_defaults today (projects (run (add_project n c p s d1 d2) w)) (seq_projects w + 1)
  = inl (ValueError_not_in_list c).
Proof.
  intros Hdb Hok Hc. unfold run. rewrite add_project_ok by done.
  destruct (db_ok_tables _ Hok) as [Hp _].
  rewrite next_rowid_ok by done.
  cbn [snd projects with_page with_projects].
  unfold tab3_defaults.
  set (r := ProjectRow (seq_projects w + 1) n c p s (strftime_Ymd d1) (strftime_Ymd d2)).
  change (seq_projects w + 1) with (p_id r).
  rewrite (head_filter_id (projects w ++ [r]) r).
  - cbn [category r]. by rewrite list_index_None.
  - rewrite fmap_app. cbn [fmap list_fmap r p_id].
    pose proof (table_ok_insert _ _ Hp) as Hins. unfold table_ok in Hins.
    apply andb_prop in Hins as [[_ Hasc]%andb_prop _].
    by eapply ascending_from_NoDup.
  - apply elem_of_app. right. left.
Qed.

Lemma edit_form_fails_on_other_category_witness :
  tab3_defaults (Date 2024 1 15)
    (projects (run (add_project "Audit" "Internal" "Bob" "On Hold"
                      (Date 2024 1 1) (Date 2024 2 1)) example_busy))
    (seq_projects example_busy + 1)
  = inl (ValueError_not_in_list "Internal").
Proof.
  apply (edit_form_fails_on_other_category example_busy (Date 2024 1 15) "Audit" "Internal" "Bob" "On Hold"
           (Date 2024 1 1) (Date 2024 2 1)); [reflexivity | reflexivity |].
  intros H. by repeat (apply elem_of_cons in H as [H | H]; [discriminate |]);
    apply not_elem_of_nil in H.
Defined.

(** The edit form checks the two required fields before it calls
    [update_project]: with an empty name or PIC the submission ends with
    the error "Name of the Project & PIC are required!" and changes
    nothing else; otherwise it is [update_project] on the selected id. *)
Lemma tab3_submit_checks_required
    (w : world) (i : Z) (n c p s : string) (d1 d2 : date) :
  (n = "" ∨ p = "" →
   tab3_submit i n c p s d1 d2 w
   = (Returned tt,
      with_page (page w ++ [Error "Name of the Project & PIC are required!"]) w))
  ∧ (n ≠ "" → p ≠ "" →
     tab3_submit i n c p s d1 d2 w = update_project i n c p s d1 d2 w).
Proof.
  unfold tab3_submit, truthy. split.
  - intros [-> | ->]; [done |]. by rewrite andb_false_r.
  - intros Hn Hp. by rewrite !bool_decide_eq_false_2.
Qed.


(** ** The delete tab *)

Lemma filter_all {A} (P : A → Prop) `{!∀ x, Decision (P x)} (l : list A) :
  Forall P l → filter P l = l.
Proof.
  induction 1 as [| x l Hx _ IH]; [done |].
  rewrite filter_cons_True by done. by rewrite IH.
Qed.

Lemma filter_other_ids (rows : list project_row) (k : nat) (r : project_row) :
  NoDup (p_id <$> rows) → rows !! k = Some r →
  filter (λ r', p_id r' ≠ p_id r) rows = delete k rows.
Proof.
  revert k. induction rows as [| r0 rows IH]; intros k; [done |].
  rewrite fmap_cons, NoDup_cons. intros [Hfresh Hnd] Hk.
  destruct k as [| k]; cbn in Hk.
  - injection Hk as ->. rewrite filter_cons_False by (intros H; by apply H).
    cbn. apply filter_all. apply Forall_forall. intros r' Hr' Hid.
    apply Hfresh. rewrite <- Hid. by apply list_elem_of_fmap_2.
  - rewrite filter_cons_True.
    + cbn. f_equal. by apply IH.
    + intros Hid. apply Hfresh. rewrite Hid.
      apply list_elem_of_fmap_2. by eapply list_elem_of_lookup_2.
Qed.

(** X12.  In the delete tab the button removes exactly the row picked in the
    select box: with ids as AUTOINCREMENT leaves them (the picked one being
    an integer that SQLite can hold, as every id of a stored row is) and
    the database answering, the table afterwards is the old one without the
    row at the chosen position, nothing else is changed, and success is
    reported.  Without a press nothing happens, and with no project at all
    the tab only says so. *)
Theorem tab4_deletes_the_chosen_row (w : world) (choice : nat) (r : project_row) :
  db_fault w = None → db_ok w = true → projects w !! choice = Some r →
  in_int64 (p_id r) = true →
  tab4 choice true w
  = (Returned tt,
     with_page (page w ++ [Success "Project deleted successfully!"])
       (with_projects (delete choice (projects w)) (seq_projects w) w))
  ∧ S (length (delete choice (projects w))) = length (projects w)
  ∧ tab4 choice false w = (Returned tt, w).
Proof.
  intros Hdb Hok Hr Hid. pose proof (db_ok_NoDup _ Hok) as Hnd.
  unfold tab4, mbind, py_bind. rewrite get_all_projects_ok by done.
  rewrite list_lookup_fmap, Hr. cbn [fmap option_fmap option_map].
  destruct (projects w) as [| r0 rows] eqn:E; [done |]. rewrite <- E in *.
  split; [| split; [| done]].
  - rewrite delete_project_ok by done. by rewrite (filter_other_ids _ choice r).
  - rewrite length_delete by (by eexists).
    apply lookup_lt_Some in Hr. lia.
Qed.

Lemma tab4_deletes_the_chosen_row_witness :
  tab4 0 true example_busy
  = (Returned tt,
     with_page (page example_busy ++ [Success "Project deleted successfully!"])
       (with_projects (delete 0%nat (projects example_busy))
          (seq_projects example_busy) example_busy))
  ∧ S (length (delete 0%nat (projects example_busy))) = length (projects example_busy)
  ∧ tab4 0 false example_busy = (Returned tt, example_busy).
Proof.
  apply (tab4_deletes_the_chosen_row example_busy 0
           (ProjectRow 1 "Portal Revamp" "Project" "Alice" "In Progress"
              "2024-01-01" "2024-02-01")); reflexivity.
Defined.

(** ** The files tab *)

(** X13.  While the database fails the files tab never gets to the upload: the
    failed listing of the projects is reported, the tab says "No projects
    available to manage files.", and a pressed upload button with a file in
    the uploader writes nothing and inserts nothing. *)
Theorem tab5_without_database
    (w : world) (msg : string) (choice : nat) (f : option UploadedFile) (pressed : bool) :
  db_fault w = Some msg →
  tab5 choice f pressed w
  = (Returned tt,
     with_page
       (page w ++ [Error ("Error fetching projects: "
                          +:+ "Execution failed on sql 'SELECT * FROM projects': "
                          +:+ msg);
                   Info "No projects available to manage files."]) w).
Proof.
  intros Hdb. destruct w as [pr sp fs sf d fault ts pg]. cbn in Hdb. subst fault.
  unfold tab5. unfold_py. cbn. by rewrite <- app_assoc.
Qed.

Lemma tab5_without_database_witness :
  tab5 0 (Some spec_pdf) true example_locked
  = (Returned tt,
     with_page
       (page example_locked
        ++ [Error ("Error fetching projects: "
                   +:+ "Execution failed on sql 'SELECT * FROM projects': "
                   +:+ "database is locked");
            Info "No projects available to manage files."]) example_locked).
Proof.
  exact (tab5_without_database example_locked "database is locked" 0
           (Some spec_pdf) true eq_refl).
Defined.

(** X14.  Pressing the upload button in the files tab with a file whose name
    is plain and fits the file system, for a project whose id SQLite can
    hold, the database answering, the disk ready and the files of the
    chosen project in place: the tab returns normally, reports the upload,
    and the listing it then draws ends with the file just uploaded, whose
    download button carries the bytes just uploaded. *)
Theorem tab5_upload_then_listing
    (w : world) (choice : nat) (r : project_row) (f : UploadedFile) :
  db_fault w = None → projects w !! choice = Some r →
  in_int64 (p_id r) = true →
  storable_name (name f) = true →
  disk_accepts (disk w) (p_id r) (name f) = true →
  Forall (λ x, project_id x = p_id r → is_file (disk w) (file_path x) = true)
         (project_files w) →
  ∃ (pg : list element) (i : Z),
    tab5 choice (Some f) true w
    = (Returned tt,
       with_page
         (page w ++ [Success "File uploaded successfully!"] ++ pg
          ++ [Text (name f);
              DownloadButton "Download" (getbuffer f) (name f)
                "application/octet-stream" ("download-" +:+ pretty i)])
         (after_upload (p_id r) f w)).
Proof.
  intros Hdb Hr Hid Hname Hacc Hall.
  destruct (after_upload_fields (p_id r) f w) as (Hpage & Hfiles & Hdisk & Hfault).
  exists ((listed <$> filter (λ x, project_id x = p_id r) (project_files w))
            ≫= drawn (disk (after_upload (p_id r) f w))),
         (next_rowid (seq_project_files w) (f_id <$> project_files w)).
  unfold tab5. unfold mbind at 1. unfold py_bind at 1.
  rewrite get_all_projects_ok by done.
  rewrite list_lookup_fmap, Hr. cbn [fmap option_fmap option_map].
  destruct (projects w) as [| r0 rows] eqn:E; [done |]. rewrite <- E in *. clear E.
  unfold mbind, py_bind. rewrite upload_file_ok by done.
  rewrite tab5_files_drawn.
  - do 2 f_equal. rewrite Hpage, Hfiles, <- !app_assoc. f_equal. f_equal.
    rewrite filter_app, filter_cons_True, fmap_app by done.
    cbn [filter list_filter fmap list_fmap].
    rewrite drawn_snoc. f_equal.
    unfold drawn, listed, content_at. cbn [fst snd f_id file_name file_path].
    rewrite Hdisk. unfold disk_with_upload. by rewrite lookup_insert_eq.
  - congruence.
  - rewrite Hfiles, Hdisk. apply Forall_app. split.
    + eapply Forall_impl; [exact Hall |]. cbn beta. intros x Hx Hpid.
      by apply is_file_after_upload, Hx.
    + constructor; [| constructor]. intros _. cbn [file_path].
      unfold is_file, disk_with_upload. by rewrite lookup_insert_eq.
Qed.

Lemma tab5_upload_then_listing_witness :
  ∃ (pg : list element) (i : Z),
    tab5 0 (Some spec_pdf_again) true example_busy
    = (Returned tt,
       with_page
         (page example_busy ++ [Success "File uploaded successfully!"] ++ pg
          ++ [Text (name spec_pdf_again);
              DownloadButton "Download" (getbuffer spec_pdf_again) (name spec_pdf_again)
                "application/octet-stream" ("download-" +:+ pretty i)])
         (after_upload 1 spec_pdf_again example_busy)).
Proof.
  apply (tab5_upload_then_listing example_busy 0
           (ProjectRow 1 "Portal Revamp" "Project" "Alice" "In Progress"
              "2024-01-01" "2024-02-01") spec_pdf_again); try reflexivity.
  repeat constructor.
Defined.


(** X15.  [delete_file] never removes an uploaded file: as long as the stored
    file names contain no separator, whatever the id and whatever the call
    does, the place files/project_<id>/<name> of every project and every
    plain name holds after the call what it held before. *)
Theorem delete_file_spares_uploads (w : world) (i pid : Z) (n : string) :
  Forall (λ r, has_slash (file_name r) = false) (project_files w) →
  valid_file_name n = true →
  disk (run (delete_file i) w) !! project_path pid n = disk w !! project_path pid n.
Proof.
  intros Hnames _. unfold run.
  destruct (in_int64 i) eqn:Hi.
  2: { rewrite delete_file_overflow by done. by destruct w. }
  destruct (db_fault w) as [msg |] eqn:Hdb.
  { rewrite (delete_file_fault _ _ msg) by done. by destruct w. }
  pose proof (delete_file_by_name w i Hi Hdb) as Hcases.
  destruct (head (filter (λ r, f_id r = i) (project_files w))) as [r0 |] eqn:Hhead;
    [| rewrite Hcases; by destruct w].
  apply head_Some_elem_of, list_elem_of_filter in Hhead as [_ Hr0].
  rewrite Forall_forall in Hnames. specialize (Hnames _ Hr0).
  destruct (disk w !! file_name r0) as [[] |]; rewrite Hcases; try (by destruct w).
  destruct w as [pr sp fs sf d fault ts pg]. cbn in *.
  apply lookup_delete_ne. intros E. rewrite E in Hnames. discriminate Hnames.
Qed.

Lemma delete_file_spares_uploads_witness :
  disk (run (delete_file 1) example_logo) !! project_path 1 "cistech.png"
  = disk example_logo !! project_path 1 "cistech.png"
  ∧ disk example_logo !! project_path 1 "cistech.png"
    = Some (File (getbuffer logo_upload))
  ∧ disk (run (delete_file 1) example_logo) !! "cistech.png" = None.
Proof.
  split; [| split; reflexivity].
  apply (delete_file_spares_uploads example_logo 1 1 "cistech.png");
    [repeat constructor | reflexivity].
Defined.

(** X16.  [delete_project] on an id that SQLite can hold and that no row has
    reports success and leaves the table as it was. *)
Theorem delete_project_absent (w : world) (i : Z) :
  in_int64 i = true →
  db_fault w = None → i ∉ (p_id <$> projects w) →
  delete_project i w
  = (Returned tt, with_page (page w ++ [Success "Project deleted successfully!"]) w).
Proof.
  intros Hid Hdb Hi. rewrite delete_project_ok by done.
  rewrite filter_all; [by destruct w |].
  apply Forall_forall. intros r Hr E. apply Hi. rewrite <- E.
  by apply list_elem_of_fmap_2.
Qed.

Lemma delete_project_absent_witness :
  delete_project 7 example_busy
  = (Returned tt,
     with_page (page example_busy ++ [Success "Project deleted successfully!"])
       example_busy).
Proof.
  apply (delete_project_absent example_busy 7); [reflexivity | reflexivity |].
  intros H. apply elem_of_cons in H as [H | H]; [discriminate |].
  by apply not_elem_of_nil in H.
Defined.

Lemma absolute_not_relative (n : string) (pid : Z) (n' : string) :
  starts_with_slash n = true →
  n ≠ "files" ∧ n ≠ project_dir pid ∧ project_path pid n' ≠ n.
Proof.
  destruct n as [| c n]; [done |]. cbn. intros Hc.
  assert (c = "/"%char) as -> by (by apply Ascii.eqb_eq).
  unfold project_dir, project_path. cbn. repeat split; discriminate.
Qed.

Lemma dirname_absolute (n : string) :
  starts_with_slash n = true → dirname n = "" ∨ starts_with_slash (dirname n) = true.
Proof.
  destruct n as [| c n]; [done |]. cbn [starts_with_slash dirname]. intros Hc.
  destruct (has_slash n); [by right | by left].
Qed.

(** X17.  A file name that is an absolute path which the file system can
    hold, in a directory that exists, takes the upload out of the project's
    directory: for a project id that SQLite can hold, [os.path.join]
    returns the name itself, the bytes are written there, the row records
    that path, and nothing is stored under files/project_<id>/. *)
Theorem upload_file_absolute_name (w : world) (pid : Z) (f : UploadedFile) :
  in_int64 pid = true →
  db_fault w = None →
  starts_with_slash (name f) = true →
  parent_is_dir (disk w) (name f) = true →
  is_component (basename (name f)) = true →
  path_problem (name f) = None →
  no_file_at (disk w) "files" = true →
  no_file_at (disk w) (project_dir pid) = true →
  no_dir_at (disk w) (name f) = true →
  ∃ w' : world,
    upload_file pid (Some f) w = (Returned tt, w')
    ∧ disk w' !! name f = Some (File (getbuffer f))
    ∧ (∀ n : string, valid_file_name n = true →
         disk w' !! project_path pid n = disk w !! project_path pid n)
    ∧ last (project_files w')
      = Some (FileRow (next_rowid (seq_project_files w) (f_id <$> project_files w))
                pid (name f) (name f) (now w)).
Proof.
  intros Hpid Hdb Habs Hparent Hcomp Hpath Hfiles Hdir Hfree.
  destruct (absolute_not_relative (name f) pid "" Habs) as (Hn1 & Hn2 & _).
  assert (os_path_join ("files/project_" +:+ pretty pid +:+ "/") (name f) = name f) as Hjoin
    by (unfold os_path_join; by rewrite Habs).
  assert (open_wb (name f) (getbuffer f)
            (with_disk (ensure_dir (project_dir pid) (ensure_dir "files" (disk w))) w)
          = (Returned tt,
             with_disk (<[name f := File (getbuffer f)]>
                          (ensure_dir (project_dir pid) (ensure_dir "files" (disk w)))) w))
    as Hopen.
  { unfold open_wb. rewrite Hpath, Hcomp. cbn [negb].
    unfold parent_is_dir in Hparent.
    destruct w as [pr sp fs sf d fault ts pg]. cbn [disk with_disk] in *.
    destruct (dirname_absolute _ Habs) as [Hroot | Hsub].
    - rewrite Hroot. rewrite !ensure_dir_lookup_ne by done.
      unfold no_dir_at in Hfree. by destruct (d !! name f) as [[] |].
    - destruct (dirname (name f)) as [| c rest] eqn:Hd; [done |].
      destruct (absolute_not_relative (String c rest) pid "" Hsub) as (Hp1 & Hp2 & _).
      rewrite !ensure_dir_lookup_ne by done.
      destruct (d !! String c rest) as [[] |]; [done | | done].
      unfold no_dir_at in Hfree. by destruct (d !! name f) as [[] |]. }
  eexists. split.
  { unfold upload_file. rewrite Hjoin.
    unfold mbind at 1. unfold py_bind at 1. rewrite os_makedirs_project by done.
    unfold mbind at 1. unfold py_bind at 1. rewrite Hopen.
    unfold mbind, py_bind. rewrite insert_into_project_files_ok by (by destruct w).
    reflexivity. }
  destruct w as [pr sp fs sf d fault ts pg].
  cbn [disk with_disk with_page with_project_files project_files seq_project_files
       now st_success emit_element snd fst page].
  split; [apply lookup_insert_eq |].
  split; [| apply last_snoc].
  intros n Hn. pose proof (valid_file_name_spec _ Hn) as (Hslash & _ & _).
  destruct (absolute_not_relative (name f) pid n Habs) as (_ & _ & Hn3).
  rewrite lookup_insert_ne by done.
  rewrite !ensure_dir_lookup_ne; [done | |].
  - apply not_eq_sym, project_path_not_files.
  - by apply not_eq_sym, project_path_not_dir.
Qed.

Lemma upload_file_absolute_name_witness :
  ∃ w' : world,
    upload_file 1 (Some root_upload) example_tmp = (Returned tt, w')
    ∧ disk w' !! name root_upload = Some (File (getbuffer root_upload))
    ∧ (∀ n : string, valid_file_name n = true →
         disk w' !! project_path 1 n = disk example_tmp !! project_path 1 n)
    ∧ last (project_files w')
      = Some (FileRow (next_rowid (seq_project_files example_tmp)
                         (f_id <$> project_files example_tmp))
                1 (name root_upload) (name root_upload) (now example_tmp)).
Proof.
  apply (upload_file_absolute_name example_tmp 1 root_upload); reflexivity.
Defined.
